(** * restaurant2: order lifecycle and loyalty ledger

    A shallow embedding of the order and point logic of
    [restaurant2/models.py] and [restaurant2/serializers.py].

    The relational store is a record of tables, each table a list of rows in
    insertion order.  ORM calls are computations in a state-and-exception
    monad over that store; a Python exception is a [Raise], and a call that
    raises stores nothing.  Columns that
    no modelled operation reads (names, images, timestamps filled in by
    [auto_now_add], the surrogate keys of [Point] and [OrderStatusHistory])
    are left out of the rows. *)

From Stdlib Require Import ZArith List Bool Lia Permutation.
Import ListNotations.
Open Scope Z_scope.

(** ** Rows *)

(** Primary keys ([AutoField]). *)
Definition pk := Z.

(** [Order.STATUS_CHOICES]. *)
Inductive Status : Type :=
| PENDING
| PREPARING
| READY
| COMPLETED
| CANCELLED.

Definition Status_eqb (a b : Status) : bool :=
  match a, b with
  | PENDING, PENDING
  | PREPARING, PREPARING
  | READY, READY
  | COMPLETED, COMPLETED
  | CANCELLED, CANCELLED => true
  | _, _ => false
  end.

(** The spec's terminal states. *)
Definition is_terminal (s : Status) : bool :=
  match s with
  | COMPLETED | CANCELLED => true
  | _ => false
  end.

(** [class Table]: [restaurant] and [number]. *)
Record Table : Type := mkTable {
  table_id : pk;
  table_restaurant : pk;
  table_number : N
}.

(** [class Point]: [amount = IntegerField()], signed. *)
Record Point : Type := mkPoint {
  point_user : pk;
  point_restaurant : pk;
  point_amount : Z
}.

(** [class MenuItem]: [price = DecimalField(max_digits=10, decimal_places=2)].
    A price is held as its number of hundredths, so that [8.50] is [850]. *)
Record MenuItem : Type := mkMenuItem {
  menu_item_id : pk;
  menu_item_restaurant : pk;
  price : Z
}.

(** [class Order]: [table], [user] and [employee] are nullable. *)
Record Order : Type := mkOrder {
  order_id : pk;
  order_restaurant : pk;
  order_table : option pk;
  order_user : option pk;
  order_employee : option pk;
  order_status : Status;
  order_paid : bool
}.

(** [class OrderItem]: [quantity = PositiveIntegerField()]. *)
Record OrderItem : Type := mkOrderItem {
  item_id : pk;
  item_order : pk;
  item_menu_item : pk;
  item_quantity : N;
  item_employee : option pk
}.

(** [class OrderStatusHistory]. *)
Record OrderStatusHistory : Type := mkHistory {
  history_order : pk;
  history_status : Status
}.

(** ** The store *)

Record DB : Type := mkDB {
  menu_items : list MenuItem;
  orders : list Order;
  order_items : list OrderItem;
  status_history : list OrderStatusHistory;
  points : list Point;
  next_order_id : pk;
  next_item_id : pk
}.

Definition empty_db : DB := mkDB [] [] [] [] [] 1 1.

Definition with_orders (l : list Order) (db : DB) : DB :=
  mkDB (menu_items db) l (order_items db) (status_history db) (points db)
       (next_order_id db) (next_item_id db).

Definition with_order_items (l : list OrderItem) (db : DB) : DB :=
  mkDB (menu_items db) (orders db) l (status_history db) (points db)
       (next_order_id db) (next_item_id db).

Definition with_status_history (l : list OrderStatusHistory) (db : DB) : DB :=
  mkDB (menu_items db) (orders db) (order_items db) l (points db)
       (next_order_id db) (next_item_id db).

Definition with_points (l : list Point) (db : DB) : DB :=
  mkDB (menu_items db) (orders db) (order_items db) (status_history db) l
       (next_order_id db) (next_item_id db).

Definition with_next_order_id (n : pk) (db : DB) : DB :=
  mkDB (menu_items db) (orders db) (order_items db) (status_history db)
       (points db) n (next_item_id db).

Definition with_next_item_id (n : pk) (db : DB) : DB :=
  mkDB (menu_items db) (orders db) (order_items db) (status_history db)
       (points db) (next_order_id db) n.

(** ** Computations over the store *)

(** The exceptions the modelled code can meet: a related row that is not
    there, and an integer that a column of the store cannot hold. *)
Inductive exn : Type :=
| DoesNotExist
| OverflowError.

Inductive result (A : Type) : Type :=
| Ok (a : A)
| Raise (e : exn).

Arguments Ok {A} a.
Arguments Raise {A} e.

Definition M (A : Type) : Type := DB -> result (A * DB).

Definition ret {A} (a : A) : M A := fun db => Ok (a, db).

Definition bind {A B} (m : M A) (k : A -> M B) : M B :=
  fun db =>
    match m db with
    | Ok (a, db') => k a db'
    | Raise e => Raise e
    end.

Definition gets {A} (f : DB -> A) : M A := fun db => Ok (f db, db).

Definition modify (f : DB -> DB) : M unit := fun db => Ok (tt, f db).

Definition raise {A} (e : exn) : M A := fun _ => Raise e.

Definition lift {A} (f : DB -> result A) : M A :=
  fun db =>
    match f db with
    | Ok a => Ok (a, db)
    | Raise e => Raise e
    end.

Notation "x <- m ;; k" := (bind m (fun x => k))
  (at level 61, m at next level, right associativity).
Notation "m ;; k" := (bind m (fun _ => k))
  (at level 61, right associativity).

(** [for x in xs: body(x)]. *)
Fixpoint for_each {A} (xs : list A) (body : A -> M unit) : M unit :=
  match xs with
  | [] => ret tt
  | x :: xs' => body x ;; for_each xs' body
  end.

(** [queryset.exists()]. *)
Definition exists_ {A} (rows : list A) : bool :=
  match rows with
  | [] => false
  | _ :: _ => true
  end.

(** ** models.py *)

(** *** Table *)

(** The reverse relation [table.orders] ([related_name="orders"]). *)
Definition Table_orders (db : DB) (self : Table) : list Order :=
  filter (fun o => match order_table o with
                   | Some t => t =? table_id self
                   | None => false
                   end) (orders db).

(** [filter(status__in=...)]. *)
Definition status__in (l : list Status) (o : Order) : bool :=
  existsb (Status_eqb (order_status o)) l.

(** [Table.is_available]. *)
Definition Table_is_available (db : DB) (self : Table) : bool :=
  negb (exists_ (filter (status__in [PENDING; PREPARING]) (Table_orders db self))).

(** *** Point *)

(** The integers that the [amount] column holds: 64-bit signed, the
    integer of the default store.  (The settings module is not among the
    sources.) *)
Definition column_min : Z := - 2 ^ 63.

Definition column_max : Z := 2 ^ 63 - 1.

Definition in_column (n : Z) : bool := (column_min <=? n) && (n <=? column_max).

(** [Point.objects.create(user=..., restaurant=..., amount=...)]: the row
    is appended when the column can hold the amount; otherwise the insert
    raises and nothing is stored.  The arguments reach this call as they are
    passed, with no validation in between. *)
Definition Point_objects_create (user restaurant : pk) (amount : Z) : M unit :=
  if in_column amount
  then modify (fun db => with_points (points db ++ [mkPoint user restaurant amount]) db)
  else raise OverflowError.

(** Modelled from the spec: [UserModel.get_total_points] lives in the
    [users] app, whose model file is not part of the sources at hand.  The
    spec's [balance(customer, restaurant)] is the sum of all entries for
    that pair, zero if none exist. *)
Definition get_total_points (db : DB) (user restaurant : pk) : Z :=
  fold_right Z.add 0
    (map point_amount
       (filter (fun p => (point_user p =? user) && (point_restaurant p =? restaurant))
          (points db))).

(** [Point.add_points]. *)
Definition Point_add_points (user restaurant : pk) (amount : Z) : M unit :=
  Point_objects_create user restaurant amount.

(** [Point.spend_points]. *)
Definition Point_spend_points (user restaurant : pk) (amount : Z) : M bool :=
  total <- gets (fun db => get_total_points db user restaurant) ;;
  if total >=? amount then
    Point_objects_create user restaurant (- amount) ;;
    ret true
  else
    ret false.

(** *** Order, OrderItem, OrderStatusHistory *)

(** The reverse relation [order.order_items]. *)
Definition Order_order_items (db : DB) (self : Order) : list OrderItem :=
  filter (fun it => item_order it =? order_id self) (order_items db).

(** The reverse relation [order.status_history]. *)
Definition Order_status_history (db : DB) (self : Order) : list OrderStatusHistory :=
  filter (fun h => history_order h =? order_id self) (status_history db).

(** [Order.objects.get(pk=...)]. *)
Definition Order_objects_get (db : DB) (id : pk) : result Order :=
  match find (fun o => order_id o =? id) (orders db) with
  | Some o => Ok o
  | None => Raise DoesNotExist
  end.

(** The forward relation [item.menu_item]. *)
Definition OrderItem_menu_item (db : DB) (self : OrderItem) : result MenuItem :=
  match find (fun m => menu_item_id m =? item_menu_item self) (menu_items db) with
  | Some m => Ok m
  | None => Raise DoesNotExist
  end.

(** The forward relation [item.order]. *)
Definition OrderItem_order (db : DB) (self : OrderItem) : result Order :=
  Order_objects_get db (item_order self).

(** *** Decimal arithmetic

    [price] comes out of the store as a Python [Decimal] with two places.
    A [Decimal] is a signed coefficient and an exponent; the sign of a zero
    is not kept.  Arithmetic is that of the default context: 28 significant
    digits, rounding half to even.  Exponents in this program start at -2 and
    only grow with rounding, so the exponent limits of the context, a million
    away, are left out. *)
Record Decimal : Type := mkDecimal {
  coefficient : Z;
  exponent : Z
}.

(** [getcontext().prec]. *)
Definition prec : Z := 28.

(** A column value of [n] hundredths. *)
Definition hundredths (n : Z) : Decimal := mkDecimal n (-2).

(** [Decimal(n)] for an [int]. *)
Definition Decimal_of_int (n : Z) : Decimal := mkDecimal n 0.

(** The least [k' >= k] with [n < 10 ^ k'], found within [fuel] steps. *)
Fixpoint count_digits (fuel : nat) (n k : Z) : Z :=
  match fuel with
  | O => k
  | S fuel' => if n <? 10 ^ k then k else count_digits fuel' n (k + 1)
  end.

(** [len(str(n))] for [n >= 0]. *)
Definition ndigits (n : Z) : Z := count_digits (S (Z.to_nat (Z.log2 n))) n 1.

(** [n] without its last [k] digits, rounded half to even. *)
Definition round_half_even (n k : Z) : Z :=
  let q := n / 10 ^ k in
  let r := n mod 10 ^ k in
  if 2 * r <? 10 ^ k then q
  else if 10 ^ k <? 2 * r then q + 1
  else if Z.even q then q else q + 1.

(** [Decimal._fix]: a coefficient of more than [prec] digits is rounded
    to [prec] digits. *)
Definition Decimal_fix (d : Decimal) : Decimal :=
  let n := Z.abs (coefficient d) in
  if n <? 10 ^ prec then d
  else
    let k := ndigits n - prec in
    let q := round_half_even n k in
    if q <? 10 ^ prec
    then mkDecimal (Z.sgn (coefficient d) * q) (exponent d + k)
    else mkDecimal (Z.sgn (coefficient d) * (q / 10)) (exponent d + k + 1).

(** [Decimal._rescale] to an exponent that is not above the present one:
    zeros are appended. *)
Definition rescale (d : Decimal) (exp : Z) : Decimal :=
  mkDecimal (coefficient d * 10 ^ (exponent d - exp)) exp.

(** [_normalize] for [tmp] of the larger exponent: an [other] too small
    to reach the digits that are kept is replaced by a one in the place that
    decides the rounding; then [tmp] is brought to the exponent of [other]. *)
Definition normalize_pair (tmp other : Decimal) : Decimal * Decimal :=
  let exp :=
    exponent tmp + Z.min (-1) (ndigits (Z.abs (coefficient tmp)) - prec - 2) in
  let other :=
    if ndigits (Z.abs (coefficient other)) + exponent other - 1 <? exp
    then mkDecimal (Z.sgn (coefficient other)) exp
    else other in
  (rescale tmp (exponent other), other).

Definition normalize (op1 op2 : Decimal) : Decimal * Decimal :=
  if exponent op1 <? exponent op2
  then let (t, o) := normalize_pair op2 op1 in (o, t)
  else normalize_pair op1 op2.

(** [Decimal.__add__]. *)
Definition Decimal_add (a b : Decimal) : Decimal :=
  let exp := Z.min (exponent a) (exponent b) in
  if (coefficient a =? 0) && (coefficient b =? 0) then Decimal_fix (mkDecimal 0 exp)
  else if coefficient a =? 0 then
    Decimal_fix (rescale b (Z.max exp (exponent b - prec - 1)))
  else if coefficient b =? 0 then
    Decimal_fix (rescale a (Z.max exp (exponent a - prec - 1)))
  else
    let (op1, op2) := normalize a b in
    if coefficient op1 + coefficient op2 =? 0
    then Decimal_fix (mkDecimal 0 exp)
    else Decimal_fix (mkDecimal (coefficient op1 + coefficient op2) (exponent op1)).

(** [Decimal.__mul__]. *)
Definition Decimal_mul (a b : Decimal) : Decimal :=
  Decimal_fix (mkDecimal (coefficient a * coefficient b) (exponent a + exponent b)).

(** What [sum] holds: the [int] it starts from, or a [Decimal]. *)
Inductive number : Type :=
| Int (n : Z)
| Dec (d : Decimal).

(** [acc + term] for a [Decimal] term: an [int] on the left is converted. *)
Definition number_add (acc : number) (term : Decimal) : Decimal :=
  match acc with
  | Int n => Decimal_add (Decimal_of_int n) term
  | Dec d => Decimal_add d term
  end.

(** One turn of [sum] over the generator of [get_total_cost]: the next
    term [item.menu_item.price * item.quantity] is computed and added to the
    running total. *)
Definition add_term (db : DB) (acc : result number) (item : OrderItem) : result number :=
  match acc with
  | Ok a =>
      match OrderItem_menu_item db item with
      | Ok m =>
          Ok (Dec (number_add a
                     (Decimal_mul (hundredths (price m))
                                  (Decimal_of_int (Z.of_N (item_quantity item))))))
      | Raise e => Raise e
      end
  | Raise e => Raise e
  end.

(** [Order.get_total_cost]: Python's [sum] folds from the left, starting
    at the [int] 0. *)
Definition Order_get_total_cost (db : DB) (self : Order) : result number :=
  fold_left (add_term db) (Order_order_items db self) (Ok (Int 0)).

(** [instance.save()] on an [Order]: the row with this key is rewritten;
    without such a row one is inserted. *)
Definition upsert (self : Order) (rows : list Order) : list Order :=
  if existsb (fun o => order_id o =? order_id self) rows
  then map (fun o => if order_id o =? order_id self then self else o) rows
  else rows ++ [self].

Definition Order_save (self : Order) : M unit :=
  modify (fun db => with_orders (upsert self (orders db)) db).

(** [instance.delete()] on an [OrderItem]. *)
Definition OrderItem_delete (self : OrderItem) : M unit :=
  modify (fun db =>
    with_order_items
      (filter (fun it => negb (item_id it =? item_id self)) (order_items db)) db).

(** [OrderItem.objects.filter(order=instance).delete()]. *)
Definition OrderItem_objects_filter_order_delete (instance : Order) : M unit :=
  modify (fun db =>
    with_order_items
      (filter (fun it => negb (item_order it =? order_id instance)) (order_items db)) db).

(** [OrderStatusHistory.objects.create(order=..., status=...)]. *)
Definition OrderStatusHistory_objects_create (order : Order) (status : Status) : M unit :=
  modify (fun db =>
    with_status_history (status_history db ++ [mkHistory (order_id order) status]) db).

(** ** serializers.py *)

(** One entry of [items], validated by [OrderItemManageSerializer]:
    [fields = ["menu_item", "quantity", "employee"]]. *)
Record OrderItemData : Type := mkItemData {
  data_menu_item : pk;
  data_quantity : N;
  data_employee : option pk
}.

(** [validated_data] of [OrderManageSerializer.create].  [restaurant] is a
    non-null key and [items] a required field, so both are always there;
    the other fields have model defaults and may be missing. *)
Record OrderCreateData : Type := mkCreateData {
  new_restaurant : pk;
  new_table : option pk;
  new_user : option pk;
  new_employee : option pk;
  new_status : option Status;
  new_paid : option bool;
  new_items : list OrderItemData
}.

(** The keys of [validated_data] that [OrderManageSerializer.update] reads.
    Each may be missing ([None]); [table] may be there and null. *)
Record OrderUpdateData : Type := mkUpdateData {
  upd_table : option (option pk);
  upd_status : option Status;
  upd_paid : option bool;
  upd_items : option (list OrderItemData)
}.

(** [dict.get(key, default)]. *)
Definition dict_get {A} (v : option A) (default : A) : A :=
  match v with
  | Some a => a
  | None => default
  end.

(** [Order.objects.create] on the unpacked [validated_data]: [status]
    defaults to [PENDING], [paid] to [False]. *)
Definition Order_objects_create (d : OrderCreateData) : M Order :=
  id <- gets next_order_id ;;
  let order :=
    mkOrder id (new_restaurant d) (new_table d) (new_user d) (new_employee d)
            (dict_get (new_status d) PENDING) (dict_get (new_paid d) false) in
  modify (fun db => with_next_order_id (id + 1) (with_orders (orders db ++ [order]) db)) ;;
  ret order.

(** [OrderItem.objects.create] with [order=order] and the unpacked
    [order_item_data]. *)
Definition OrderItem_objects_create (order : Order) (d : OrderItemData) : M unit :=
  id <- gets next_item_id ;;
  modify (fun db =>
    with_next_item_id (id + 1)
      (with_order_items
         (order_items db ++
          [mkOrderItem id (order_id order) (data_menu_item d) (data_quantity d)
                       (data_employee d)]) db)).

Definition set_table (t : option pk) (o : Order) : Order :=
  mkOrder (order_id o) (order_restaurant o) t (order_user o) (order_employee o)
          (order_status o) (order_paid o).

Definition set_status (s : Status) (o : Order) : Order :=
  mkOrder (order_id o) (order_restaurant o) (order_table o) (order_user o)
          (order_employee o) s (order_paid o).

Definition set_paid (p : bool) (o : Order) : Order :=
  mkOrder (order_id o) (order_restaurant o) (order_table o) (order_user o)
          (order_employee o) (order_status o) p.

(** [OrderManageSerializer.create]. *)
Definition OrderManageSerializer_create (validated_data : OrderCreateData) : M Order :=
  let order_items_data := new_items validated_data in
  order <- Order_objects_create validated_data ;;
  for_each order_items_data (fun order_item_data =>
    OrderItem_objects_create order order_item_data) ;;
  OrderStatusHistory_objects_create order (order_status order) ;;
  ret order.

(** [OrderManageSerializer.update]. *)
Definition OrderManageSerializer_update
    (instance : Order) (validated_data : OrderUpdateData) : M Order :=
  let order_items_data := upd_items validated_data in
  let instance := set_table (dict_get (upd_table validated_data) (order_table instance)) instance in
  let instance := set_status (dict_get (upd_status validated_data) (order_status instance)) instance in
  let instance := set_paid (dict_get (upd_paid validated_data) (order_paid instance)) instance in
  Order_save instance ;;
  match order_items_data with
  | Some items =>
      OrderItem_objects_filter_order_delete instance ;;
      for_each items (fun order_item_data =>
        OrderItem_objects_create instance order_item_data)
  | None => ret tt
  end ;;
  match upd_status validated_data with
  | Some _ => OrderStatusHistory_objects_create instance (order_status instance)
  | None => ret tt
  end ;;
  ret instance.

(** [OrderCancelSerializer.update]; [validated_data] is not read. *)
Definition OrderCancelSerializer_update (instance : Order) : M Order :=
  let instance := set_status CANCELLED instance in
  Order_save instance ;;
  OrderStatusHistory_objects_create instance CANCELLED ;;
  ret instance.

(** [OrderItemCancelSerializer.update]; [validated_data] is not read. *)
Definition OrderItemCancelSerializer_update (instance : OrderItem) : M OrderItem :=
  order <- lift (fun db => OrderItem_order db instance) ;;
  OrderItem_delete instance ;;
  remaining <- gets (fun db => exists_ (Order_order_items db order)) ;;
  (if negb remaining then
     let order := set_status CANCELLED order in
     Order_save order ;;
     OrderStatusHistory_objects_create order CANCELLED
   else ret tt) ;;
  ret instance.

(** The spec's names for the update paths. *)
Definition setStatus (order : Order) (newStatus : Status) : M Order :=
  OrderManageSerializer_update order (mkUpdateData None (Some newStatus) None None).

Definition replaceItems (order : Order) (items : list OrderItemData) : M Order :=
  OrderManageSerializer_update order (mkUpdateData None None None (Some items)).

Definition cancel (order : Order) : M Order := OrderCancelSerializer_update order.

Definition cancelItem (item : OrderItem) : M OrderItem :=
  OrderItemCancelSerializer_update item.

(** *** Querysets and the read side of [OrderSerializer] *)

(** [OrderQuerySet.unpaid]: [self.filter(paid=False)]. *)
Definition OrderQuerySet_unpaid (self : list Order) : list Order :=
  filter (fun o => Bool.eqb (order_paid o) false) self.

(** [OrderQuerySet.by_status]: [self.filter(status=status)]. *)
Definition OrderQuerySet_by_status (self : list Order) (status : Status) : list Order :=
  filter (fun o => Status_eqb (order_status o) status) self.

(** [OrderManager.get_queryset]: all the rows of the Order table. *)
Definition OrderManager_get_queryset (db : DB) : list Order := orders db.

(** [OrderManager.unpaid]. *)
Definition OrderManager_unpaid (db : DB) : list Order :=
  OrderQuerySet_unpaid (OrderManager_get_queryset db).

(** [OrderSerializer.get_items]: [OrderItem.objects.filter(order=obj)],
    one entry per row. *)
Definition OrderSerializer_get_items (db : DB) (obj : Order) : list OrderItem :=
  filter (fun it => item_order it =? order_id obj) (order_items db).

(** [OrderSerializer.get_status_history]: the [status] of every entry of
    [obj.status_history.all()], in the order of the rows. *)
Definition OrderSerializer_get_status_history (db : DB) (obj : Order) : list Status :=
  map history_status (Order_status_history db obj).

(** [OrderSerializer.get_total_cost]. *)
Definition OrderSerializer_get_total_cost (db : DB) (obj : Order) : result number :=
  Order_get_total_cost db obj.

(** ** Notions used in the statements *)

(** The rows that the loop over [items] inserts for [order], the first one
    under key [id]. *)
Fixpoint item_rows (order : Order) (id : pk) (items : list OrderItemData)
  : list OrderItem :=
  match items with
  | [] => []
  | d :: ds =>
      mkOrderItem id (order_id order) (data_menu_item d) (data_quantity d)
                  (data_employee d)
      :: item_rows order (id + 1) ds
  end.

(** Keys are handed out in increasing order, so a history row can only
    name an order whose key is already taken. *)
Definition history_fk_ok (db : DB) : Prop :=
  Forall (fun h => history_order h < next_order_id db) (status_history db).

(** Every item of [order] names a menu item that is there. *)
Definition menu_fk_ok (db : DB) (order : Order) : Prop :=
  Forall (fun it => exists m, OrderItem_menu_item db it = Ok m)
         (Order_order_items db order).

(** [price * quantity] of one line, with the price now on the menu. *)
Definition line_cost (db : DB) (it : OrderItem) : Z :=
  match OrderItem_menu_item db it with
  | Ok m => price m * Z.of_N (item_quantity it)
  | Raise _ => 0
  end.

(** Sum of a list of amounts. *)
Definition sumZ (l : list Z) : Z := fold_right Z.add 0 l.

(** Sum of their magnitudes. *)
Definition sum_abs (l : list Z) : Z := sumZ (map Z.abs l).

(** The items of the item table that name the order under key [k]. *)
Definition items_naming (db : DB) (k : pk) : list OrderItem :=
  filter (fun it => item_order it =? k) (order_items db).

(** The exact sum of line costs as [sum] returns it: the [int] 0 for no
    lines, a [Decimal] with two places otherwise. *)
Definition sum_result (l : list Z) : number :=
  match l with
  | [] => Int 0
  | _ :: _ => Dec (hundredths (sumZ l))
  end.

(** *** A small restaurant

    Menu: item 1 at 8.50, item 2 at 3.25.  Order 1, of customer 7 at
    restaurant 1 and table 4, has two lines: 2 x item 1 and 1 x item 2. *)

Definition menu : list MenuItem := [mkMenuItem 1 1 850; mkMenuItem 2 1 325].

Definition line1 : OrderItem := mkOrderItem 1 1 1 2 None.
Definition line2 : OrderItem := mkOrderItem 2 1 2 1 None.

Definition order1 (s : Status) : Order := mkOrder 1 1 (Some 4) (Some 7) None s false.

(** Order 1 in state [s], with the history [past]. *)
Definition store (s : Status) (lines : list OrderItem) (past : list Status) : DB :=
  mkDB menu [order1 s] lines (map (mkHistory 1) past) [] 2 3.

Definition table4 : Table := mkTable 4 1 4.

(** One order of one line: the largest quantity the column holds, of an
    item at the largest price of ten digits, 99999999.99. *)
Definition big_store : DB :=
  mkDB [mkMenuItem 1 1 9999999999] [order1 PENDING]
       [mkOrderItem 1 1 1 9223372036854775807 None] [mkHistory 1 PENDING] [] 2 2.

(** A second order, READY and paid, at the same table, with one line:
    4 x item 2; order 1 is PREPARING. *)
Definition order2 : Order := mkOrder 2 1 (Some 4) None None READY true.

Definition line3 : OrderItem := mkOrderItem 3 2 2 4 None.

Definition store2 : DB :=
  mkDB menu [order1 PREPARING; order2] [line1; line3; line2]
       [mkHistory 1 PENDING; mkHistory 2 PENDING; mkHistory 1 PREPARING;
        mkHistory 2 READY]
       [] 3 4.

(** *** Integrity of the store

    What the database keeps for these tables: keys are unique and below
    the next key to hand out, and the [order] of an item or of a history row
    is the key of a stored order. *)
Record store_ok (db : DB) : Prop := mk_store_ok {
  order_keys_below :
    Forall (fun o => order_id o < next_order_id db) (orders db);
  order_keys_nodup : NoDup (map order_id (orders db));
  item_keys_below :
    Forall (fun it => item_id it < next_item_id db) (order_items db);
  item_keys_nodup : NoDup (map item_id (order_items db));
  item_order_fk :
    Forall (fun it => In (item_order it) (map order_id (orders db))) (order_items db);
  history_order_fk :
    Forall (fun h => In (history_order h) (map order_id (orders db))) (status_history db)
}.

(** The history of every stored order ends with its current status. *)
Definition history_ends_with_status (db : DB) : Prop :=
  forall o : Order,
    In o (orders db) ->
    exists past : list Status,
      OrderSerializer_get_status_history db o = past ++ [order_status o].

(** [price * quantity] of one entry of [items], with the price now on the
    menu. *)
Definition data_cost (db : DB) (d : OrderItemData) : Z :=
  match find (fun m => menu_item_id m =? data_menu_item d) (menu_items db) with
  | Some m => price m * Z.of_N (data_quantity d)
  | None => 0
  end.

(** ** Unfolding the monad *)

Ltac run :=
  cbv beta iota zeta delta
    [bind ret gets modify lift raise
     Point_add_points Point_spend_points Point_objects_create
     OrderStatusHistory_objects_create Order_save OrderItem_delete
     OrderItem_objects_filter_order_delete Order_objects_create] in *.

(** Integrity of a store that is written out. *)
Ltac store_ok_by_computation :=
  constructor; simpl;
  repeat (first [ apply Forall_nil | apply Forall_cons
                | apply NoDup_nil | apply NoDup_cons ]);
  simpl; try lia; try (intuition (try discriminate; lia)); auto.

(** * Properties *)

(** ** The ledger *)

Section Ledger.

Variables (user restaurant : pk).

Lemma sum_snoc (l : list Z) (x : Z) :
  fold_right Z.add 0 (l ++ [x]) = fold_right Z.add 0 l + x.
Proof.
  induction l as [|y l IH]; simpl; lia.
Qed.

(** The balance of a pair after one more entry for that pair. *)
Lemma get_total_points_snoc (db : DB) (amount : Z) :
  get_total_points
    (with_points (points db ++ [mkPoint user restaurant amount]) db)
    user restaurant
  = get_total_points db user restaurant + amount.
Proof.
  unfold get_total_points; simpl.
  rewrite filter_app; simpl.
  rewrite !Z.eqb_refl; simpl.
  rewrite map_app; simpl.
  apply sum_snoc.
Qed.

End Ledger.

(** What the insert of a Point row does. *)
Lemma Point_objects_create_run (db : DB) (user restaurant : pk) (amount : Z) :
  Point_objects_create user restaurant amount db
  = if in_column amount
    then Ok (tt, with_points (points db ++ [mkPoint user restaurant amount]) db)
    else Raise OverflowError.
Proof.
  unfold Point_objects_create; now destruct (in_column amount).
Qed.

(** What [spend_points] does. *)
Lemma spend_points_run (db : DB) (user restaurant : pk) (amount : Z) :
  Point_spend_points user restaurant amount db
  = if get_total_points db user restaurant >=? amount
    then if in_column (- amount)
         then Ok (true,
                  with_points (points db ++ [mkPoint user restaurant (- amount)]) db)
         else Raise OverflowError
    else Ok (false, db).
Proof.
  run.
  destruct (get_total_points db user restaurant >=? amount); [|reflexivity].
  now destruct (in_column (- amount)).
Qed.

Lemma in_column_bounds (n : Z) :
  in_column n = true <-> - 2 ^ 63 <= n <= 2 ^ 63 - 1.
Proof.
  unfold in_column, column_min, column_max.
  rewrite andb_true_iff, !Z.leb_le; tauto.
Qed.

(** C2, as the code has it.  For an amount whose negation the amount
    column can hold, [spend_points] returns; it returns [True] exactly when
    the balance is at least [amount], and then the only change to the store
    is one new Point row of [-amount]; when it returns [False] the store, and
    with it the balance, is as before. *)
Theorem spend_points_iff_sufficient_balance
    (db : DB) (user restaurant : pk) (amount : Z) :
  in_column (- amount) = true ->
  exists (ok : bool) (db' : DB),
    Point_spend_points user restaurant amount db = Ok (ok, db') /\
    (ok = true <-> get_total_points db user restaurant >= amount) /\
    (ok = true ->
       db' = with_points (points db ++ [mkPoint user restaurant (- amount)]) db /\
       length (points db') = S (length (points db))) /\
    (ok = false ->
       db' = db /\
       points db' = points db /\
       get_total_points db' user restaurant = get_total_points db user restaurant).
Proof.
  intros Hcol.
  rewrite spend_points_run, Hcol.
  destruct (get_total_points db user restaurant >=? amount) eqn:E.
  - eexists true, _; split; [reflexivity|].
    repeat split; try discriminate; try lia.
    simpl; rewrite length_app; simpl; apply Nat.add_1_r.
  - eexists false, db; split; [reflexivity|].
    repeat split; try discriminate; try lia.
Qed.

Lemma spend_points_iff_sufficient_balance_witness :
  in_column (- 4) = true /\
  exists (ok : bool) (db' : DB),
    Point_spend_points 7 1 4 (with_points [mkPoint 7 1 10] empty_db) = Ok (ok, db') /\
    (ok = true <-> get_total_points (with_points [mkPoint 7 1 10] empty_db) 7 1 >= 4) /\
    (ok = true ->
       db' = with_points [mkPoint 7 1 10; mkPoint 7 1 (- 4)] empty_db /\
       length (points db') = 2%nat) /\
    (ok = false ->
       db' = with_points [mkPoint 7 1 10] empty_db /\
       points db' = [mkPoint 7 1 10] /\
       get_total_points db' 7 1
       = get_total_points (with_points [mkPoint 7 1 10] empty_db) 7 1).
Proof.
  split; [reflexivity|].
  exact (spend_points_iff_sufficient_balance
           (with_points [mkPoint 7 1 10] empty_db) 7 1 4 eq_refl).
Defined.

(** C2 fails as stated: on the empty store the balance, 0, is at least
    [- 2 ^ 63], yet spending that amount does not return [True]; the row of
    [2 ^ 63] does not fit the column and the call raises. *)
Lemma spend_points_of_least_integer_raises :
  get_total_points empty_db 1 1 >= - 2 ^ 63 /\
  Point_spend_points 1 1 (- 2 ^ 63) empty_db = Raise OverflowError /\
  forall (ok : bool) (db' : DB),
    Point_spend_points 1 1 (- 2 ^ 63) empty_db <> Ok (ok, db').
Proof.
  split; [vm_compute; discriminate|].
  split; [reflexivity|].
  intros ok db' H; vm_compute in H; discriminate.
Qed.

(** The spec's scenario: with a balance of 10, spending 15 fails and
    changes nothing. *)
Example spend_15_of_10 :
  get_total_points (with_points [mkPoint 7 1 10] empty_db) 7 1 = 10 /\
  Point_spend_points 7 1 15 (with_points [mkPoint 7 1 10] empty_db)
  = Ok (false, with_points [mkPoint 7 1 10] empty_db).
Proof. split; reflexivity. Qed.

(** C7, as the code has it: [add_points] checks nothing.  For every
    amount that the amount column can hold, of either sign or zero, it
    returns normally and the only change to the store is one new Point row
    with that amount. *)
Theorem add_points_appends_any_amount
    (db : DB) (user restaurant : pk) (amount : Z) :
  in_column amount = true ->
  Point_add_points user restaurant amount db
  = Ok (tt, with_points (points db ++ [mkPoint user restaurant amount]) db) /\
  length (points db ++ [mkPoint user restaurant amount]) = S (length (points db)) /\
  (forall e, Point_add_points user restaurant amount db <> Raise e).
Proof.
  intros Hcol; unfold Point_add_points.
  rewrite Point_objects_create_run, Hcol.
  repeat split.
  - rewrite length_app; simpl; apply Nat.add_1_r.
  - discriminate.
Qed.

Lemma add_points_appends_any_amount_witness :
  in_column 0 = true /\
  Point_add_points 7 1 0 (with_points [mkPoint 7 1 10] empty_db)
  = Ok (tt, with_points [mkPoint 7 1 10; mkPoint 7 1 0] empty_db) /\
  length [mkPoint 7 1 10; mkPoint 7 1 0] = 2%nat /\
  (forall e, Point_add_points 7 1 0 (with_points [mkPoint 7 1 10] empty_db) <> Raise e).
Proof.
  split; [reflexivity|].
  exact (add_points_appends_any_amount
           (with_points [mkPoint 7 1 10] empty_db) 7 1 0 eq_refl).
Defined.

(** C7 fails as stated: earning [-5] on the empty store is not rejected
    and leaves a Point row of [-5]. *)
Lemma add_points_negative_not_rejected :
  -5 <= 0 /\
  Point_add_points 1 1 (-5) empty_db
  = Ok (tt, with_points [mkPoint 1 1 (-5)] empty_db) /\
  (forall e, Point_add_points 1 1 (-5) empty_db <> Raise e) /\
  points (with_points [mkPoint 1 1 (-5)] empty_db) <> points empty_db.
Proof.
  repeat split; try lia; try discriminate.
Qed.

(** An amount that the column cannot hold is refused by the store, not
    by [add_points]: the insert raises and no row is added. *)
Example add_points_beyond_column :
  Point_add_points 1 1 (2 ^ 63) empty_db = Raise OverflowError.
Proof. reflexivity. Qed.

(** C10, as the code has it.  [spend_points] has no test on the sign of
    [amount]: with [amount <= 0], a balance of at least [amount] and [-amount]
    within the amount column, it returns [True] and appends a row of
    [-amount], so the balance goes up by [-amount], strictly when [amount] is
    negative. *)
Theorem spend_points_non_positive_amount
    (db : DB) (user restaurant : pk) (amount : Z) :
  amount <= 0 ->
  get_total_points db user restaurant >= amount ->
  in_column (- amount) = true ->
  exists db' : DB,
    Point_spend_points user restaurant amount db = Ok (true, db') /\
    points db' = points db ++ [mkPoint user restaurant (- amount)] /\
    get_total_points db' user restaurant
    = get_total_points db user restaurant - amount /\
    (amount < 0 ->
     get_total_points db' user restaurant > get_total_points db user restaurant).
Proof.
  intros Hneg Hbal Hcol.
  rewrite spend_points_run, Hcol.
  destruct (get_total_points db user restaurant >=? amount) eqn:E; [|lia].
  eexists; split; [reflexivity|].
  rewrite get_total_points_snoc.
  repeat split; simpl; lia.
Qed.

Lemma spend_points_non_positive_amount_witness :
  -5 <= 0 /\
  get_total_points empty_db 1 1 >= -5 /\
  in_column (- -5) = true /\
  exists db' : DB,
    Point_spend_points 1 1 (-5) empty_db = Ok (true, db') /\
    points db' = points empty_db ++ [mkPoint 1 1 (- -5)] /\
    get_total_points db' 1 1 = get_total_points empty_db 1 1 - -5 /\
    (-5 < 0 -> get_total_points db' 1 1 > get_total_points empty_db 1 1).
Proof.
  split; [lia|].
  split; [vm_compute; discriminate|].
  split; [reflexivity|].
  apply (spend_points_non_positive_amount empty_db 1 1 (-5)).
  - lia.
  - vm_compute; discriminate.
  - reflexivity.
Defined.

(** C10 fails as stated: [- 2 ^ 63] is at most 0 and at most the balance
    of 10, yet spending it neither returns [True] nor adds a row; the row of
    [2 ^ 63] does not fit the column and the call raises. *)
Lemma spend_points_of_least_integer_adds_nothing :
  - 2 ^ 63 <= 0 /\
  get_total_points (with_points [mkPoint 7 1 10] empty_db) 7 1 >= - 2 ^ 63 /\
  Point_spend_points 7 1 (- 2 ^ 63) (with_points [mkPoint 7 1 10] empty_db)
  = Raise OverflowError /\
  forall db' : DB,
    Point_spend_points 7 1 (- 2 ^ 63) (with_points [mkPoint 7 1 10] empty_db)
    <> Ok (true, db').
Proof.
  split; [lia|].
  split; [vm_compute; discriminate|].
  split; [reflexivity|].
  intros db' H; vm_compute in H; discriminate.
Qed.

(** ** Table availability *)

Lemma exists__true {A} (rows : list A) :
  exists_ rows = true <-> exists x, In x rows.
Proof.
  destruct rows as [|x rows]; simpl; split.
  - discriminate.
  - intros [x []].
  - intros _; exists x; now left.
  - reflexivity.
Qed.

Lemma status__in_active (o : Order) :
  status__in [PENDING; PREPARING] o = true <->
  order_status o = PENDING \/ order_status o = PREPARING.
Proof.
  unfold status__in; simpl.
  destruct (order_status o); simpl; intuition discriminate.
Qed.

Lemma Table_orders_In (db : DB) (t : Table) (o : Order) :
  In o (Table_orders db t) <->
  In o (orders db) /\ order_table o = Some (table_id t).
Proof.
  unfold Table_orders; rewrite filter_In.
  destruct (order_table o) as [k|].
  - rewrite Z.eqb_eq; split; intros [H1 H2]; split; auto; congruence.
  - split; intros [H1 H2]; split; auto; discriminate.
Qed.

(** C8. A table is unavailable exactly when some order that references it
    is PENDING or PREPARING; so a table all of whose orders are READY,
    COMPLETED or CANCELLED, and a table without orders, is available. *)
Theorem is_available_iff_no_active_order (db : DB) (t : Table) :
  (Table_is_available db t = false <->
   exists o : Order,
     In o (orders db) /\ order_table o = Some (table_id t) /\
     (order_status o = PENDING \/ order_status o = PREPARING)) /\
  ((forall o : Order,
      In o (orders db) -> order_table o = Some (table_id t) ->
      order_status o = READY \/ order_status o = COMPLETED \/
      order_status o = CANCELLED) ->
   Table_is_available db t = true) /\
  (Table_orders db t = [] -> Table_is_available db t = true).
Proof.
  assert (Hiff : Table_is_available db t = false <->
                 exists o : Order,
                   In o (orders db) /\ order_table o = Some (table_id t) /\
                   (order_status o = PENDING \/ order_status o = PREPARING)).
  { unfold Table_is_available.
    rewrite negb_false_iff, exists__true.
    split; intros [o Ho]; exists o.
    - apply filter_In in Ho as [Hin Hst].
      apply Table_orders_In in Hin as [Hin Htab].
      apply status__in_active in Hst; auto.
    - destruct Ho as (Hin & Htab & Hst).
      apply filter_In; split.
      + apply Table_orders_In; auto.
      + apply status__in_active; auto. }
  split; [exact Hiff|split].
  - intros Hall.
    apply not_false_is_true; intros Hf.
    apply Hiff in Hf as (o & Hin & Htab & Hst).
    destruct (Hall o Hin Htab) as [H|[H|H]], Hst as [H'|H']; congruence.
  - intros Hnone.
    apply not_false_is_true; intros Hf.
    apply Hiff in Hf as (o & Hin & Htab & _).
    assert (Ho : In o (Table_orders db t)) by (apply Table_orders_In; auto).
    rewrite Hnone in Ho; exact Ho.
Qed.

Lemma is_available_iff_no_active_order_witness :
  Table_is_available (store PREPARING [line1; line2] [PENDING; PREPARING]) table4 = false /\
  Table_is_available (store READY [line1; line2] [PENDING; READY]) table4 = true /\
  Table_is_available empty_db table4 = true.
Proof.
  split; [|split].
  - apply (proj1 (is_available_iff_no_active_order
                    (store PREPARING [line1; line2] [PENDING; PREPARING]) table4)).
    exists (order1 PREPARING); simpl; auto.
  - apply (proj1 (proj2 (is_available_iff_no_active_order
                    (store READY [line1; line2] [PENDING; READY]) table4))).
    simpl; intros o [<-|[]] _; simpl; auto.
  - apply (proj2 (proj2 (is_available_iff_no_active_order empty_db table4))).
    reflexivity.
Defined.

(** ** The order lifecycle: what each serializer method does to the store *)

Section Lifecycle.

Variable db : DB.

(** The loop that inserts the item rows. *)
Lemma for_each_OrderItem_objects_create (order : Order) (items : list OrderItemData) :
  forall db0 : DB,
    for_each items (fun d => OrderItem_objects_create order d) db0
    = Ok (tt,
          with_next_item_id (next_item_id db0 + Z.of_nat (length items))
            (with_order_items
               (order_items db0 ++ item_rows order (next_item_id db0) items) db0)).
Proof.
  induction items as [|d ds IH]; intros db0.
  - destruct db0; unfold with_next_item_id, with_order_items; simpl.
    unfold ret; now rewrite app_nil_r, Z.add_0_r.
  - cbn [for_each]; unfold bind.
    change (OrderItem_objects_create order d db0)
      with (Ok (tt,
                with_next_item_id (next_item_id db0 + 1)
                  (with_order_items
                     (order_items db0 ++
                      [mkOrderItem (next_item_id db0) (order_id order)
                         (data_menu_item d) (data_quantity d) (data_employee d)])
                     db0))).
    cbv beta iota; rewrite IH.
    destruct db0; unfold with_next_item_id, with_order_items; simpl.
    rewrite <- app_assoc; simpl.
    do 3 f_equal; lia.
Qed.

(** After [save] the row under the instance's key is the instance. *)
Lemma find_upsert (self : Order) (rows : list Order) :
  find (fun o => order_id o =? order_id self) (upsert self rows) = Some self.
Proof.
  unfold upsert.
  destruct (existsb _ rows) eqn:E.
  - induction rows as [|o rows IH]; simpl in *; [discriminate|].
    destruct (order_id o =? order_id self) eqn:Eo; simpl.
    + now rewrite Z.eqb_refl.
    + rewrite Eo; auto.
  - induction rows as [|o rows IH]; simpl in *.
    + now rewrite Z.eqb_refl.
    + apply orb_false_iff in E as [Eo E]; rewrite Eo; auto.
Qed.

(** [OrderManageSerializer.update], whole. *)
Lemma update_spec (instance : Order) (vd : OrderUpdateData) :
  exists (instance' : Order) (db' : DB),
    OrderManageSerializer_update instance vd db = Ok (instance', db') /\
    instance' = mkOrder (order_id instance) (order_restaurant instance)
                        (dict_get (upd_table vd) (order_table instance))
                        (order_user instance) (order_employee instance)
                        (dict_get (upd_status vd) (order_status instance))
                        (dict_get (upd_paid vd) (order_paid instance)) /\
    orders db' = upsert instance' (orders db) /\
    order_items db'
    = match upd_items vd with
      | Some items =>
          filter (fun it => negb (item_order it =? order_id instance)) (order_items db)
          ++ item_rows instance' (next_item_id db) items
      | None => order_items db
      end /\
    status_history db'
    = status_history db ++
      match upd_status vd with
      | Some s => [mkHistory (order_id instance) s]
      | None => []
      end /\
    points db' = points db /\
    menu_items db' = menu_items db /\
    next_order_id db' = next_order_id db.
Proof.
  unfold OrderManageSerializer_update.
  destruct vd as [t s p its]; cbn [upd_table upd_status upd_paid upd_items].
  destruct its as [items|], s as [s|]; run;
    rewrite ?for_each_OrderItem_objects_create;
    eexists _, _; (split; [reflexivity|]); simpl;
    rewrite ?app_nil_r; repeat split.
Qed.

(** [OrderCancelSerializer.update], whole. *)
Lemma cancel_spec (instance : Order) :
  exists db' : DB,
    OrderCancelSerializer_update instance db
    = Ok (set_status CANCELLED instance, db') /\
    orders db' = upsert (set_status CANCELLED instance) (orders db) /\
    order_items db' = order_items db /\
    status_history db'
    = status_history db ++ [mkHistory (order_id instance) CANCELLED] /\
    points db' = points db.
Proof.
  unfold OrderCancelSerializer_update; run.
  eexists; split; [reflexivity|]; simpl; repeat split.
Qed.

(** [OrderItemCancelSerializer.update], whole, for an item whose order
    is in the store. *)
Lemma cancelItem_spec (instance : OrderItem) (order : Order) :
  OrderItem_order db instance = Ok order ->
  exists db' : DB,
    OrderItemCancelSerializer_update instance db = Ok (instance, db') /\
    order_items db'
    = filter (fun it => negb (item_id it =? item_id instance)) (order_items db) /\
    points db' = points db /\
    (Order_order_items db' order = [] ->
     orders db' = upsert (set_status CANCELLED order) (orders db) /\
     status_history db'
     = status_history db ++ [mkHistory (order_id order) CANCELLED]) /\
    (Order_order_items db' order <> [] ->
     orders db' = orders db /\ status_history db' = status_history db).
Proof.
  intros Horder.
  unfold OrderItemCancelSerializer_update; run.
  rewrite Horder.
  set (rest := filter (fun it => negb (item_id it =? item_id instance)) (order_items db)).
  unfold Order_order_items at 1; cbn [order_items with_order_items].
  destruct (filter (fun it => item_order it =? order_id order) rest) eqn:E;
    cbn [exists_ negb];
    eexists; (split; [reflexivity|]);
    unfold Order_order_items; simpl; fold rest; rewrite E;
    repeat split; congruence.
Qed.

End Lifecycle.

(** ** Reading the store back *)

Lemma Order_objects_get_saved (db' : DB) (o : Order) (rows : list Order) :
  orders db' = upsert o rows ->
  Order_objects_get db' (order_id o) = Ok o.
Proof.
  intros H; unfold Order_objects_get.
  now rewrite H, find_upsert.
Qed.

Lemma filter_item_rows (order : Order) (items : list OrderItemData) :
  forall n : pk,
    filter (fun it => item_order it =? order_id order) (item_rows order n items)
    = item_rows order n items.
Proof.
  induction items as [|d ds IH]; intros n; simpl; [reflexivity|].
  rewrite Z.eqb_refl; f_equal; apply IH.
Qed.

Lemma filter_excluded {A} (P : A -> bool) (l : list A) :
  filter P (filter (fun x => negb (P x)) l) = [].
Proof.
  induction l as [|x l IH]; simpl; [reflexivity|].
  destruct (P x) eqn:E; simpl; rewrite ?E; exact IH.
Qed.

Lemma filter_none {A} (P : A -> bool) (l : list A) :
  (forall x, In x l -> P x = false) -> filter P l = [].
Proof.
  induction l as [|x l IH]; simpl; [reflexivity|]; intros H.
  rewrite (H x (or_introl eq_refl)); auto.
Qed.

Lemma length_snoc {A} (l : list A) (x : A) : length (l ++ [x]) = S (length l).
Proof.
  rewrite length_app; simpl; apply Nat.add_1_r.
Qed.

(** The history of one order after a row for that order is appended. *)
Lemma Order_status_history_snoc (db db' : DB) (order : Order) (s : Status) :
  status_history db' = status_history db ++ [mkHistory (order_id order) s] ->
  Order_status_history db' order
  = Order_status_history db order ++ [mkHistory (order_id order) s].
Proof.
  intros H; unfold Order_status_history.
  rewrite H, filter_app; simpl.
  now rewrite Z.eqb_refl.
Qed.

(** The balance reads the Point table only. *)
Lemma get_total_points_ext (db db' : DB) :
  points db' = points db ->
  forall user restaurant : pk,
    get_total_points db' user restaurant = get_total_points db user restaurant.
Proof.
  intros H user restaurant; unfold get_total_points; now rewrite H.
Qed.

(** ** Terminal states *)

(** C1, as the code has it: no serializer method looks at the current
    status.  On an order that is COMPLETED or CANCELLED, [setStatus] and
    [cancel] return normally, store the new status and append one history
    row; [cancelItem] returns normally and deletes the item; [replaceItems]
    returns normally and leaves the order with exactly the new items. *)
Theorem terminal_orders_are_not_guarded
    (db : DB) (order : Order) (item : OrderItem)
    (newStatus : Status) (items : list OrderItemData) :
  is_terminal (order_status order) = true ->
  OrderItem_order db item = Ok order ->
  (exists db1 : DB,
     setStatus order newStatus db = Ok (set_status newStatus order, db1) /\
     Order_objects_get db1 (order_id order) = Ok (set_status newStatus order) /\
     status_history db1
     = status_history db ++ [mkHistory (order_id order) newStatus]) /\
  (exists db2 : DB,
     cancel order db = Ok (set_status CANCELLED order, db2) /\
     Order_objects_get db2 (order_id order) = Ok (set_status CANCELLED order) /\
     status_history db2
     = status_history db ++ [mkHistory (order_id order) CANCELLED]) /\
  (exists db3 : DB,
     cancelItem item db = Ok (item, db3) /\
     order_items db3
     = filter (fun it => negb (item_id it =? item_id item)) (order_items db) /\
     ~ In item (order_items db3)) /\
  (exists db4 : DB,
     replaceItems order items db = Ok (order, db4) /\
     Order_order_items db4 order = item_rows order (next_item_id db) items).
Proof.
  intros _ Hitem.
  split; [|split; [|split]].
  - destruct (update_spec db order (mkUpdateData None (Some newStatus) None None))
      as (i & db1 & Hrun & Hi & Ho & _ & Hh & _).
    cbn [upd_table upd_status upd_paid dict_get] in Hi, Hh.
    change (i = set_status newStatus order) in Hi; subst i.
    exists db1; repeat split; auto.
    apply (Order_objects_get_saved _ (set_status newStatus order) _ Ho).
  - destruct (cancel_spec db order) as (db2 & Hrun & Ho & _ & Hh & _).
    exists db2; repeat split; auto.
    apply (Order_objects_get_saved _ (set_status CANCELLED order) _ Ho).
  - destruct (cancelItem_spec db item order Hitem) as (db3 & Hrun & Hit & _).
    exists db3; repeat split; auto.
    rewrite Hit; intros Hin.
    apply filter_In in Hin as [_ Hin].
    now rewrite Z.eqb_refl in Hin.
  - destruct (update_spec db order (mkUpdateData None None None (Some items)))
      as (i & db4 & Hrun & Hi & _ & Hit & _).
    cbn [upd_table upd_status upd_paid upd_items dict_get] in Hi, Hit.
    assert (Heq : i = order) by (rewrite Hi; destruct order; reflexivity).
    clear Hi; subst i.
    exists db4; split; [exact Hrun|].
    unfold Order_order_items.
    rewrite Hit, filter_app, filter_item_rows.
    now rewrite (filter_excluded (fun it => item_order it =? order_id order)).
Qed.

Lemma terminal_orders_are_not_guarded_witness :
  is_terminal (order_status (order1 COMPLETED)) = true /\
  OrderItem_order (store COMPLETED [line1; line2] [PENDING; COMPLETED]) line1
  = Ok (order1 COMPLETED) /\
  (exists db1 : DB,
     setStatus (order1 COMPLETED) READY
       (store COMPLETED [line1; line2] [PENDING; COMPLETED])
     = Ok (order1 READY, db1) /\
     Order_objects_get db1 1 = Ok (order1 READY) /\
     status_history db1 = map (mkHistory 1) [PENDING; COMPLETED; READY]) /\
  (exists db2 : DB,
     cancel (order1 COMPLETED) (store COMPLETED [line1; line2] [PENDING; COMPLETED])
     = Ok (order1 CANCELLED, db2) /\
     Order_objects_get db2 1 = Ok (order1 CANCELLED) /\
     status_history db2 = map (mkHistory 1) [PENDING; COMPLETED; CANCELLED]) /\
  (exists db3 : DB,
     cancelItem line1 (store COMPLETED [line1; line2] [PENDING; COMPLETED])
     = Ok (line1, db3) /\
     order_items db3
     = filter (fun it => negb (item_id it =? item_id line1)) [line1; line2] /\
     ~ In line1 (order_items db3)) /\
  (exists db4 : DB,
     replaceItems (order1 COMPLETED) [mkItemData 2 5 None]
       (store COMPLETED [line1; line2] [PENDING; COMPLETED])
     = Ok (order1 COMPLETED, db4) /\
     Order_order_items db4 (order1 COMPLETED) = [mkOrderItem 3 1 2 5 None]).
Proof.
  split; [reflexivity|].
  split; [reflexivity|].
  exact (terminal_orders_are_not_guarded
           (store COMPLETED [line1; line2] [PENDING; COMPLETED])
           (order1 COMPLETED) line1 READY [mkItemData 2 5 None]
           eq_refl eq_refl).
Defined.

(** C1 fails as stated: cancelling the COMPLETED order 1 is not rejected;
    the stored order becomes CANCELLED and its history grows. *)
Lemma cancel_of_completed_order_goes_through :
  is_terminal (order_status (order1 COMPLETED)) = true /\
  exists db' : DB,
    cancel (order1 COMPLETED) (store COMPLETED [line1; line2] [PENDING; COMPLETED])
    = Ok (order1 CANCELLED, db') /\
    Order_objects_get db' 1 = Ok (order1 CANCELLED) /\
    orders db' <> orders (store COMPLETED [line1; line2] [PENDING; COMPLETED]) /\
    status_history db' = map (mkHistory 1) [PENDING; COMPLETED; CANCELLED] /\
    status_history db'
    <> status_history (store COMPLETED [line1; line2] [PENDING; COMPLETED]).
Proof.
  split; [reflexivity|].
  eexists; split; [reflexivity|].
  repeat split; discriminate.
Qed.

(** ** Completion and the ledger *)

(** C3, as the code has it: [update] never touches the Point table.
    Setting an order to COMPLETED, with or without a customer on the order,
    stores the status and appends the history row, and leaves the Point
    table, and so every balance, as it was. *)
Theorem completing_an_order_awards_no_points (db : DB) (order : Order) :
  exists db' : DB,
    setStatus order COMPLETED db = Ok (set_status COMPLETED order, db') /\
    Order_objects_get db' (order_id order) = Ok (set_status COMPLETED order) /\
    status_history db'
    = status_history db ++ [mkHistory (order_id order) COMPLETED] /\
    points db' = points db /\
    forall user restaurant : pk,
      get_total_points db' user restaurant = get_total_points db user restaurant.
Proof.
  destruct (update_spec db order (mkUpdateData None (Some COMPLETED) None None))
    as (i & db' & Hrun & Hi & Ho & _ & Hh & Hp & _).
  cbn [upd_table upd_status upd_paid dict_get] in Hi, Hh.
  change (i = set_status COMPLETED order) in Hi; subst i.
  exists db'; repeat split; auto.
  - apply (Order_objects_get_saved _ (set_status COMPLETED order) _ Ho).
  - apply get_total_points_ext, Hp.
Qed.

(** C3 fails as stated: order 1 belongs to customer 7 and totals 20.25,
    yet completing it creates no Point row and customer 7's balance at
    restaurant 1 does not go up. *)
Lemma completed_order_of_customer_earns_nothing :
  order_user (order1 READY) = Some 7 /\
  Order_get_total_cost (store READY [line1; line2] [PENDING; READY]) (order1 READY)
  = Ok (Dec (hundredths 2025)) /\
  exists db' : DB,
    setStatus (order1 READY) COMPLETED (store READY [line1; line2] [PENDING; READY])
    = Ok (order1 COMPLETED, db') /\
    points db' = [] /\
    ~ get_total_points db' 7 1
      > get_total_points (store READY [line1; line2] [PENDING; READY]) 7 1.
Proof.
  split; [reflexivity|].
  split; [reflexivity|].
  eexists; split; [reflexivity|].
  split; [reflexivity|].
  vm_compute; discriminate.
Qed.

(** ** Status history *)

(** C9. [update] appends one history row when [validated_data] has a
    [status] key, whatever its value, also the order's current status, and
    none when it has not, whatever happens to table, paid flag and items. *)
Theorem update_appends_history_iff_status_key
    (db : DB) (instance : Order) (vd : OrderUpdateData) :
  exists (instance' : Order) (db' : DB),
    OrderManageSerializer_update instance vd db = Ok (instance', db') /\
    status_history db'
    = status_history db ++
      match upd_status vd with
      | Some s => [mkHistory (order_id instance) s]
      | None => []
      end /\
    length (status_history db')
    = (length (status_history db) +
       match upd_status vd with
       | Some _ => 1
       | None => 0
       end)%nat /\
    order_status instance' = dict_get (upd_status vd) (order_status instance).
Proof.
  destruct (update_spec db instance vd)
    as (i & db' & Hrun & Hi & _ & _ & Hh & _).
  exists i, db'; split; [exact Hrun|].
  split; [exact Hh|].
  split; [|now subst i].
  rewrite Hh, length_app.
  now destruct (upd_status vd).
Qed.

(** An update that repeats the current status still adds a row. *)
Example update_with_same_status_grows_history :
  exists db' : DB,
    OrderManageSerializer_update (order1 READY)
      (mkUpdateData None (Some READY) None None)
      (store READY [line1; line2] [PENDING; READY])
    = Ok (order1 READY, db') /\
    status_history db' = map (mkHistory 1) [PENDING; READY; READY].
Proof.
  eexists; split; reflexivity.
Qed.

(** An update of table, paid flag and items without a status adds none. *)
Example update_without_status_keeps_history :
  exists db' : DB,
    OrderManageSerializer_update (order1 READY)
      (mkUpdateData (Some None) None (Some true) (Some [mkItemData 2 5 None]))
      (store READY [line1; line2] [PENDING; READY])
    = Ok (mkOrder 1 1 None (Some 7) None READY true, db') /\
    status_history db' = map (mkHistory 1) [PENDING; READY] /\
    order_items db' = [mkOrderItem 3 1 2 5 None].
Proof.
  eexists; split; [reflexivity|split; reflexivity].
Qed.

(** [OrderManageSerializer.create], whole. *)
Lemma create_spec (db : DB) (d : OrderCreateData) :
  exists (order' : Order) (db' : DB),
    OrderManageSerializer_create d db = Ok (order', db') /\
    order' = mkOrder (next_order_id db) (new_restaurant d) (new_table d)
                     (new_user d) (new_employee d)
                     (dict_get (new_status d) PENDING)
                     (dict_get (new_paid d) false) /\
    orders db' = orders db ++ [order'] /\
    order_items db'
    = order_items db ++ item_rows order' (next_item_id db) (new_items d) /\
    status_history db'
    = status_history db ++ [mkHistory (next_order_id db) (order_status order')] /\
    points db' = points db /\
    next_order_id db' = next_order_id db + 1.
Proof.
  unfold OrderManageSerializer_create; run.
  rewrite for_each_OrderItem_objects_create.
  eexists _, _; split; [reflexivity|]; simpl; repeat split.
Qed.

(** No history row names the key that the next order will get. *)
Lemma no_history_for_next_key (db : DB) :
  history_fk_ok db ->
  filter (fun h => history_order h =? next_order_id db) (status_history db) = [].
Proof.
  unfold history_fk_ok.
  induction 1 as [|h l Hh _ IH]; simpl; [reflexivity|].
  destruct (Z.eqb_spec (history_order h) (next_order_id db)); [lia|exact IH].
Qed.

(** [create] keeps the history keys in range. *)
Lemma create_keeps_history_fk_ok (db db' : DB) (d : OrderCreateData) (order' : Order) :
  history_fk_ok db ->
  OrderManageSerializer_create d db = Ok (order', db') ->
  history_fk_ok db'.
Proof.
  intros Hfk Hrun.
  destruct (create_spec db d) as (o & db1 & Hrun' & _ & _ & _ & Hh & _ & Hn).
  rewrite Hrun' in Hrun; injection Hrun as -> ->.
  unfold history_fk_ok in *; rewrite Hh, Hn.
  apply Forall_app; split.
  - eapply Forall_impl; [|exact Hfk]; simpl; intros; lia.
  - constructor; [simpl; lia|constructor].
Qed.

(** C4, as the code has it.  Right after [create] the new order has
    exactly one history row, and that row carries the status the order was
    created with: the [status] of the request when it has one, PENDING when
    it has none.  Every [setStatus] and every [cancel] then adds exactly one
    row, carrying the new status, to the order's history. *)
Theorem history_has_one_row_per_status_change
    (db : DB) (d : OrderCreateData) (order : Order) (newStatus : Status) :
  history_fk_ok db ->
  (exists (order' : Order) (db' : DB),
     OrderManageSerializer_create d db = Ok (order', db') /\
     order_status order' = dict_get (new_status d) PENDING /\
     Order_status_history db' order'
     = [mkHistory (order_id order') (order_status order')]) /\
  (exists db' : DB,
     setStatus order newStatus db = Ok (set_status newStatus order, db') /\
     Order_status_history db' order
     = Order_status_history db order ++ [mkHistory (order_id order) newStatus] /\
     length (Order_status_history db' order)
     = S (length (Order_status_history db order))) /\
  (exists db' : DB,
     cancel order db = Ok (set_status CANCELLED order, db') /\
     Order_status_history db' order
     = Order_status_history db order ++ [mkHistory (order_id order) CANCELLED] /\
     length (Order_status_history db' order)
     = S (length (Order_status_history db order))).
Proof.
  intros Hfk.
  split; [|split].
  - destruct (create_spec db d) as (o & db' & Hrun & Ho & _ & _ & Hh & _).
    exists o, db'; split; [exact Hrun|].
    split; [now subst o|].
    unfold Order_status_history.
    assert (Hid : order_id o = next_order_id db) by now subst o.
    rewrite Hh, Hid, filter_app, (no_history_for_next_key db Hfk); simpl.
    now rewrite Z.eqb_refl.
  - destruct (update_spec db order (mkUpdateData None (Some newStatus) None None))
      as (i & db' & Hrun & Hi & _ & _ & Hh & _).
    cbn [upd_table upd_status upd_paid dict_get] in Hi, Hh.
    change (i = set_status newStatus order) in Hi; subst i.
    exists db'; split; [exact Hrun|].
    rewrite (Order_status_history_snoc db db' order newStatus Hh).
    split; [reflexivity|apply length_snoc].
  - destruct (cancel_spec db order) as (db' & Hrun & _ & _ & Hh & _).
    exists db'; split; [exact Hrun|].
    rewrite (Order_status_history_snoc db db' order CANCELLED Hh).
    split; [reflexivity|apply length_snoc].
Qed.

Lemma history_has_one_row_per_status_change_witness :
  history_fk_ok (store PENDING [line1; line2] [PENDING]) /\
  (exists (order' : Order) (db' : DB),
     OrderManageSerializer_create
       (mkCreateData 1 None (Some 7) None None None [mkItemData 1 2 None])
       (store PENDING [line1; line2] [PENDING])
     = Ok (order', db') /\
     order_status order' = PENDING /\
     Order_status_history db' order'
     = [mkHistory (order_id order') (order_status order')]) /\
  (exists db' : DB,
     setStatus (order1 PENDING) PREPARING (store PENDING [line1; line2] [PENDING])
     = Ok (order1 PREPARING, db') /\
     Order_status_history db' (order1 PENDING)
     = Order_status_history (store PENDING [line1; line2] [PENDING]) (order1 PENDING)
       ++ [mkHistory 1 PREPARING] /\
     length (Order_status_history db' (order1 PENDING))
     = S (length (Order_status_history (store PENDING [line1; line2] [PENDING])
                    (order1 PENDING)))) /\
  (exists db' : DB,
     cancel (order1 PENDING) (store PENDING [line1; line2] [PENDING])
     = Ok (order1 CANCELLED, db') /\
     Order_status_history db' (order1 PENDING)
     = Order_status_history (store PENDING [line1; line2] [PENDING]) (order1 PENDING)
       ++ [mkHistory 1 CANCELLED] /\
     length (Order_status_history db' (order1 PENDING))
     = S (length (Order_status_history (store PENDING [line1; line2] [PENDING])
                    (order1 PENDING)))).
Proof.
  assert (Hfk : history_fk_ok (store PENDING [line1; line2] [PENDING])).
  { unfold history_fk_ok; simpl; repeat constructor. }
  split; [exact Hfk|].
  exact (history_has_one_row_per_status_change
           (store PENDING [line1; line2] [PENDING])
           (mkCreateData 1 None (Some 7) None None None [mkItemData 1 2 None])
           (order1 PENDING) PREPARING Hfk).
Defined.

(** C4 fails as stated: an order created with [status] READY in the
    request starts with the single history row READY, not PENDING. *)
Lemma created_order_history_need_not_be_pending :
  exists (order' : Order) (db' : DB),
    OrderManageSerializer_create
      (mkCreateData 1 None (Some 7) None (Some READY) None [mkItemData 1 2 None])
      (mkDB menu [] [] [] [] 1 1)
    = Ok (order', db') /\
    Order_status_history db' order' = [mkHistory 1 READY] /\
    Order_status_history db' order' <> [mkHistory 1 PENDING].
Proof.
  eexists _, _; split; [reflexivity|].
  split; [reflexivity|discriminate].
Qed.

(** ** Cancelling one item *)




(** The only item of a PENDING order is cancelled: the order ends
    CANCELLED with the history PENDING, CANCELLED. *)
Example cancelItem_last_item :
  cancelItem line1 (store PENDING [line1] [PENDING])
  = Ok (line1, store CANCELLED [] [PENDING; CANCELLED]).
Proof. reflexivity. Qed.

(** One of two items is cancelled: order and history stay. *)
Example cancelItem_one_of_two :
  cancelItem line1 (store PREPARING [line1; line2] [PENDING; PREPARING])
  = Ok (line1, store PREPARING [line2] [PENDING; PREPARING]).
Proof. reflexivity. Qed.

(** ** The total of an order *)

Section Totals.

Variable db : DB.

Lemma count_digits_ge (fuel : nat) (n : Z) :
  forall k : Z, k <= count_digits fuel n k.
Proof.
  induction fuel as [|fuel IH]; intros k; simpl; [lia|].
  destruct (n <? 10 ^ k); [lia|].
  specialize (IH (k + 1)); lia.
Qed.

Lemma ndigits_pos (n : Z) : 1 <= ndigits n.
Proof.
  apply count_digits_ge.
Qed.

(** Within 28 digits nothing is rounded. *)
Lemma Decimal_fix_exact (c e : Z) :
  Z.abs c < 10 ^ 28 -> Decimal_fix (mkDecimal c e) = mkDecimal c e.
Proof.
  intros H; unfold Decimal_fix; cbn [coefficient].
  destruct (Z.ltb_spec (Z.abs c) (10 ^ prec)) as [_|H']; [reflexivity|].
  unfold prec in H'; lia.
Qed.

Lemma Decimal_mul_exact (p q : Z) :
  Z.abs (p * q) < 10 ^ 28 ->
  Decimal_mul (hundredths p) (Decimal_of_int q) = hundredths (p * q).
Proof.
  intros H; unfold Decimal_mul, hundredths, Decimal_of_int.
  cbn [coefficient exponent].
  now apply Decimal_fix_exact.
Qed.

(** The sum of two values in hundredths, within 28 digits, is exact and
    in hundredths. *)
Lemma Decimal_add_hundredths (a c : Z) :
  Z.abs (a + c) < 10 ^ 28 ->
  Decimal_add (hundredths a) (hundredths c) = hundredths (a + c).
Proof.
  intros H; unfold Decimal_add, hundredths; cbn [coefficient exponent].
  change (Z.min (-2) (-2)) with (-2).
  change (Z.max (-2) (-2 - prec - 1)) with (-2).
  destruct (Z.eqb_spec a 0) as [->|Ha], (Z.eqb_spec c 0) as [->|Hc]; cbn [andb].
  - now apply Decimal_fix_exact.
  - unfold rescale; cbn [coefficient exponent].
    change (10 ^ (-2 - -2)) with 1; rewrite Z.mul_1_r.
    now apply Decimal_fix_exact.
  - unfold rescale; cbn [coefficient exponent].
    change (10 ^ (-2 - -2)) with 1; rewrite Z.mul_1_r, Z.add_0_r in *.
    now apply Decimal_fix_exact.
  - unfold normalize; cbn [coefficient exponent].
    change (-2 <? -2) with false; cbv iota.
    unfold normalize_pair; cbn [coefficient exponent].
    pose proof (ndigits_pos (Z.abs c)) as Hd.
    destruct (Z.ltb_spec (ndigits (Z.abs c) + -2 - 1)
                (-2 + Z.min (-1) (ndigits (Z.abs a) - prec - 2))) as [Hlt|_];
      [lia|].
    unfold rescale; cbn [coefficient exponent].
    change (10 ^ (-2 - -2)) with 1; rewrite Z.mul_1_r.
    destruct (Z.eqb_spec (a + c) 0) as [->|_]; now apply Decimal_fix_exact.
Qed.

(** The first turn of [sum]: the [int] 0 and a value in hundredths. *)
Lemma Decimal_add_int_0 (c : Z) :
  Z.abs c < 10 ^ 28 ->
  Decimal_add (Decimal_of_int 0) (hundredths c) = hundredths c.
Proof.
  intros H; unfold Decimal_add, hundredths, Decimal_of_int.
  cbn [coefficient exponent].
  change (Z.min 0 (-2)) with (-2).
  change (Z.max (-2) (-2 - prec - 1)) with (-2).
  change (0 =? 0) with true; cbn [andb].
  destruct (Z.eqb_spec c 0) as [->|Hc].
  - now apply Decimal_fix_exact.
  - unfold rescale; cbn [coefficient exponent].
    change (10 ^ (-2 - -2)) with 1; rewrite Z.mul_1_r.
    now apply Decimal_fix_exact.
Qed.

Lemma sum_abs_nonneg (l : list Z) : 0 <= sum_abs l.
Proof.
  unfold sum_abs, sumZ; induction l as [|x l IH]; simpl; lia.
Qed.

Lemma sumZ_le_sum_abs (l : list Z) : Z.abs (sumZ l) <= sum_abs l.
Proof.
  unfold sum_abs, sumZ; induction l as [|x l IH]; simpl; lia.
Qed.

(** While every menu item is found and the magnitudes stay within 28
    digits, the fold adds up the line costs exactly. *)
Lemma fold_add_term_exact (l : list OrderItem) :
  Forall (fun it => exists m, OrderItem_menu_item db it = Ok m) l ->
  forall a : Z,
    Z.abs a + sum_abs (map (line_cost db) l) < 10 ^ 28 ->
    fold_left (add_term db) l (Ok (Dec (hundredths a)))
    = Ok (Dec (hundredths (a + sumZ (map (line_cost db) l)))).
Proof.
  induction 1 as [|it l [m Hm] _ IH]; intros a Hb; simpl.
  - now rewrite Z.add_0_r.
  - assert (Hc : line_cost db it = price m * Z.of_N (item_quantity it))
      by (unfold line_cost; now rewrite Hm).
    change (sum_abs (map (line_cost db) (it :: l)))
      with (Z.abs (line_cost db it) + sum_abs (map (line_cost db) l)) in Hb.
    change (sumZ (line_cost db it :: map (line_cost db) l))
      with (line_cost db it + sumZ (map (line_cost db) l)).
    pose proof (sum_abs_nonneg (map (line_cost db) l)) as Hn.
    rewrite Hm; cbn [number_add].
    rewrite Decimal_mul_exact by (rewrite <- Hc; lia).
    rewrite Decimal_add_hundredths by (rewrite <- Hc; lia).
    rewrite IH by (rewrite <- Hc; lia).
    rewrite Hc; do 3 f_equal; lia.
Qed.

(** The whole of [sum], from the [int] 0. *)
Lemma fold_add_term_total (l : list OrderItem) :
  Forall (fun it => exists m, OrderItem_menu_item db it = Ok m) l ->
  sum_abs (map (line_cost db) l) < 10 ^ 28 ->
  fold_left (add_term db) l (Ok (Int 0)) = Ok (sum_result (map (line_cost db) l)).
Proof.
  intros Hfk Hb; destruct Hfk as [|it l [m Hm] Hfk]; [reflexivity|].
  assert (Hc : line_cost db it = price m * Z.of_N (item_quantity it))
    by (unfold line_cost; now rewrite Hm).
  change (sum_abs (map (line_cost db) (it :: l)))
    with (Z.abs (line_cost db it) + sum_abs (map (line_cost db) l)) in Hb.
  pose proof (sum_abs_nonneg (map (line_cost db) l)) as Hn.
  cbn [fold_left add_term]; rewrite Hm; cbn [number_add].
  rewrite Decimal_mul_exact by (rewrite <- Hc; lia).
  rewrite Decimal_add_int_0 by (rewrite <- Hc; lia).
  rewrite (fold_add_term_exact l Hfk) by (rewrite <- Hc; lia).
  now rewrite <- Hc.
Qed.


Lemma sumZ_Permutation (l l' : list Z) :
  Permutation l l' -> sumZ l = sumZ l'.
Proof.
  induction 1; simpl; lia.
Qed.

Lemma sum_result_Permutation (l l' : list Z) :
  Permutation l l' -> sum_result l = sum_result l'.
Proof.
  intros H; destruct l as [|x l], l' as [|x' l']; simpl.
  - reflexivity.
  - now apply Permutation_nil in H.
  - now apply Permutation_sym, Permutation_nil in H.
  - do 2 f_equal; now apply (sumZ_Permutation (x :: l) (x' :: l')).
Qed.

Lemma filter_Permutation {A} (P : A -> bool) (l l' : list A) :
  Permutation l l' -> Permutation (filter P l) (filter P l').
Proof.
  induction 1 as [|x l l' _ IH|x y l|l l' l'' _ IH1 _ IH2]; simpl.
  - constructor.
  - destruct (P x); auto.
  - destruct (P x), (P y); auto using perm_swap.
  - now transitivity (filter P l').
Qed.

(** Menu lookups depend on the menu table only. *)
Lemma OrderItem_menu_item_ext (db' : DB) (it : OrderItem) :
  menu_items db' = menu_items db ->
  OrderItem_menu_item db' it = OrderItem_menu_item db it.
Proof.
  intros H; unfold OrderItem_menu_item; now rewrite H.
Qed.

Lemma line_cost_ext (db' : DB) :
  menu_items db' = menu_items db ->
  forall l : list OrderItem, map (line_cost db') l = map (line_cost db) l.
Proof.
  intros H l; apply map_ext; intros it.
  unfold line_cost; now rewrite (OrderItem_menu_item_ext db' it H).
Qed.

End Totals.

(** C6, as the code has it.  Take an order all of whose items name a menu
    item that is there, with the magnitudes of its line costs summing to less
    than [10 ^ 28] hundredths, the 28 digits that Python's decimal context
    keeps.  Then [get_total_cost] is the sum, over the rows of the item table
    that name the order, of the quantity times the price now on the menu, to
    two decimal places (the [int] 0 when no row names it); and it is the same
    for any other arrangement of the rows of the item table. *)
Theorem get_total_cost_is_sum_in_any_order (db db' : DB) (order : Order) :
  Forall (fun it => exists m, OrderItem_menu_item db it = Ok m)
         (items_naming db (order_id order)) ->
  sum_abs (map (line_cost db) (items_naming db (order_id order))) < 10 ^ 28 ->
  menu_items db' = menu_items db ->
  Permutation (order_items db) (order_items db') ->
  Order_get_total_cost db order
  = Ok (sum_result (map (line_cost db) (items_naming db (order_id order)))) /\
  Order_get_total_cost db' order = Order_get_total_cost db order.
Proof.
  intros Hfk Hb Hmenu Hperm.
  assert (Hitems : Permutation (items_naming db (order_id order))
                               (items_naming db' (order_id order)))
    by now apply filter_Permutation.
  assert (Hfk' : Forall (fun it => exists m, OrderItem_menu_item db' it = Ok m)
                        (items_naming db' (order_id order))).
  { rewrite <- Hitems.
    eapply Forall_impl; [|exact Hfk].
    intros it [m Hm]; exists m.
    now rewrite (OrderItem_menu_item_ext db db' it Hmenu). }
  assert (Hcosts : Permutation (map (line_cost db) (items_naming db (order_id order)))
                               (map (line_cost db') (items_naming db' (order_id order)))).
  { rewrite (line_cost_ext db db' Hmenu); now apply Permutation_map. }
  assert (Hb' : sum_abs (map (line_cost db') (items_naming db' (order_id order)))
                < 10 ^ 28).
  { unfold sum_abs in *.
    rewrite <- (sumZ_Permutation _ _ (Permutation_map Z.abs Hcosts)); exact Hb. }
  unfold Order_get_total_cost.
  change (Order_order_items db order) with (items_naming db (order_id order)).
  change (Order_order_items db' order) with (items_naming db' (order_id order)).
  rewrite (fold_add_term_total db _ Hfk Hb), (fold_add_term_total db' _ Hfk' Hb').
  split; [reflexivity|].
  f_equal; symmetry; now apply sum_result_Permutation.
Qed.

(** In the store of two orders, order 1 has the items 8.50 x 2 and
    3.25 x 1 and totals 20.25, with the rows in either order; the item of
    order 2 between them does not count. *)
Lemma get_total_cost_is_sum_in_any_order_witness :
  Forall (fun it => exists m, OrderItem_menu_item store2 it = Ok m)
         (items_naming store2 (order_id (order1 PREPARING))) /\
  sum_abs (map (line_cost store2) (items_naming store2 (order_id (order1 PREPARING))))
  < 10 ^ 28 /\
  Permutation (order_items store2) [line2; line3; line1] /\
  Order_get_total_cost store2 (order1 PREPARING) = Ok (Dec (hundredths 2025)) /\
  Order_get_total_cost (with_order_items [line2; line3; line1] store2) (order1 PREPARING)
  = Order_get_total_cost store2 (order1 PREPARING).
Proof.
  assert (Hfk : Forall (fun it => exists m, OrderItem_menu_item store2 it = Ok m)
                       (items_naming store2 (order_id (order1 PREPARING)))).
  { repeat (apply Forall_cons; [eexists; reflexivity|]); apply Forall_nil. }
  assert (Hb : sum_abs (map (line_cost store2)
                          (items_naming store2 (order_id (order1 PREPARING))))
               < 10 ^ 28) by reflexivity.
  assert (Hp : Permutation (order_items store2) [line2; line3; line1])
    by apply (Permutation_rev [line1; line3; line2]).
  split; [exact Hfk|].
  split; [exact Hb|].
  split; [exact Hp|].
  exact (get_total_cost_is_sum_in_any_order store2
           (with_order_items [line2; line3; line1] store2)
           (order1 PREPARING) Hfk Hb eq_refl Hp).
Defined.

(** C6 fails as stated: one line of 9223372036854775807 x 99999999.99
    has a cost of 29 digits; the product is rounded to 28, so the total comes
    with one decimal place and is not the sum. *)
Lemma get_total_cost_rounds_beyond_28_digits :
  map (line_cost big_store) (items_naming big_store 1)
  = [92233720359324386033145224193] /\
  Order_get_total_cost big_store (order1 PENDING)
  = Ok (Dec (mkDecimal 9223372035932438603314522419 (-1))) /\
  Order_get_total_cost big_store (order1 PENDING)
  <> Ok (Dec (hundredths 92233720359324386033145224193)).
Proof.
  split; [reflexivity|].
  split; [vm_compute; reflexivity|].
  vm_compute; discriminate.
Qed.

(** The spec's second scenario: 2 x 5.00 and 1 x 3.00 total 13.00. *)
Example get_total_cost_13_00 :
  Order_get_total_cost
    (mkDB [mkMenuItem 1 1 500; mkMenuItem 2 1 300] [order1 PENDING]
          [line1; line2] [mkHistory 1 PENDING] [] 2 3)
    (order1 PENDING)
  = Ok (Dec (hundredths 1300)).
Proof. reflexivity. Qed.

(** An order without items totals the [int] 0. *)
Example get_total_cost_no_items :
  Order_get_total_cost (store CANCELLED [] [PENDING; CANCELLED]) (order1 CANCELLED)
  = Ok (Int 0).
Proof. reflexivity. Qed.


(** * Further properties of the store operations *)

(** ** The final store of each serializer method *)

Lemma update_run (db : DB) (instance : Order) (vd : OrderUpdateData) :
  let instance' :=
    mkOrder (order_id instance) (order_restaurant instance)
            (dict_get (upd_table vd) (order_table instance))
            (order_user instance) (order_employee instance)
            (dict_get (upd_status vd) (order_status instance))
            (dict_get (upd_paid vd) (order_paid instance)) in
  OrderManageSerializer_update instance vd db
  = Ok (instance',
        mkDB (menu_items db) (upsert instance' (orders db))
          (match upd_items vd with
           | Some items =>
               filter (fun it => negb (item_order it =? order_id instance))
                      (order_items db)
               ++ item_rows instance' (next_item_id db) items
           | None => order_items db
           end)
          (status_history db ++
           match upd_status vd with
           | Some s => [mkHistory (order_id instance) s]
           | None => []
           end)
          (points db) (next_order_id db)
          (match upd_items vd with
           | Some items => next_item_id db + Z.of_nat (length items)
           | None => next_item_id db
           end)).
Proof.
  unfold OrderManageSerializer_update.
  destruct vd as [t s p its]; cbn [upd_table upd_status upd_paid upd_items].
  destruct its as [items|], s as [s|]; run;
    rewrite ?for_each_OrderItem_objects_create;
    unfold with_next_item_id, with_order_items, with_status_history, with_orders;
    simpl; rewrite ?app_nil_r; reflexivity.
Qed.

Lemma cancel_run (db : DB) (instance : Order) :
  OrderCancelSerializer_update instance db
  = Ok (set_status CANCELLED instance,
        mkDB (menu_items db) (upsert (set_status CANCELLED instance) (orders db))
          (order_items db)
          (status_history db ++ [mkHistory (order_id instance) CANCELLED])
          (points db) (next_order_id db) (next_item_id db)).
Proof. reflexivity. Qed.

Lemma create_run (db : DB) (d : OrderCreateData) :
  let order :=
    mkOrder (next_order_id db) (new_restaurant d) (new_table d) (new_user d)
            (new_employee d) (dict_get (new_status d) PENDING)
            (dict_get (new_paid d) false) in
  OrderManageSerializer_create d db
  = Ok (order,
        mkDB (menu_items db) (orders db ++ [order])
          (order_items db ++ item_rows order (next_item_id db) (new_items d))
          (status_history db ++ [mkHistory (next_order_id db) (order_status order)])
          (points db) (next_order_id db + 1)
          (next_item_id db + Z.of_nat (length (new_items d)))).
Proof.
  unfold OrderManageSerializer_create; run.
  rewrite for_each_OrderItem_objects_create.
  reflexivity.
Qed.

Lemma cancelItem_run (db : DB) (instance : OrderItem) (order : Order) :
  OrderItem_order db instance = Ok order ->
  let rest :=
    filter (fun it => negb (item_id it =? item_id instance)) (order_items db) in
  let last := negb (exists_ (filter (fun it => item_order it =? order_id order) rest)) in
  OrderItemCancelSerializer_update instance db
  = Ok (instance,
        mkDB (menu_items db)
          (if last then upsert (set_status CANCELLED order) (orders db) else orders db)
          rest
          (if last
           then status_history db ++ [mkHistory (order_id order) CANCELLED]
           else status_history db)
          (points db) (next_order_id db) (next_item_id db)).
Proof.
  intros Horder rest last.
  unfold OrderItemCancelSerializer_update; run.
  rewrite Horder.
  unfold Order_order_items at 1; cbn [order_items with_order_items].
  fold rest; fold last.
  destruct last; [reflexivity|].
  destruct db; reflexivity.
Qed.

(** ** Keys *)

Lemma existsb_key (k : pk) (rows : list Order) :
  existsb (fun o => order_id o =? k) rows = true <-> In k (map order_id rows).
Proof.
  rewrite existsb_exists, in_map_iff.
  split; intros (o & H1 & H2); exists o.
  - apply Z.eqb_eq in H2; auto.
  - rewrite Z.eqb_eq; auto.
Qed.

(** [save] of a stored order keeps the keys of the table, in place. *)
Lemma upsert_keys (self : Order) (rows : list Order) :
  In (order_id self) (map order_id rows) ->
  map order_id (upsert self rows) = map order_id rows.
Proof.
  intros Hin; unfold upsert.
  apply existsb_key in Hin; rewrite Hin.
  rewrite map_map; apply map_ext_in; intros o _.
  destruct (Z.eqb_spec (order_id o) (order_id self)); congruence.
Qed.

Lemma upsert_In (self : Order) (rows : list Order) (o : Order) :
  In (order_id self) (map order_id rows) ->
  In o (upsert self rows) ->
  o = self \/ (In o rows /\ order_id o <> order_id self).
Proof.
  intros Hin; unfold upsert.
  apply existsb_key in Hin; rewrite Hin.
  rewrite in_map_iff; intros (r & Hr & Hrin).
  destruct (Z.eqb_spec (order_id r) (order_id self)); subst; auto.
Qed.

Lemma upsert_In_other (self : Order) (rows : list Order) (o : Order) :
  In o rows -> order_id o <> order_id self -> In o (upsert self rows).
Proof.
  intros Hin Hne; unfold upsert.
  destruct (existsb _ rows).
  - apply in_map_iff; exists o; split; [|exact Hin].
    destruct (Z.eqb_spec (order_id o) (order_id self)); congruence.
  - apply in_or_app; now left.
Qed.

Lemma upsert_In_self (self : Order) (rows : list Order) :
  In self (upsert self rows).
Proof.
  pose proof (find_upsert self rows) as H.
  now apply find_some in H.
Qed.

(** Two rows under one key of a table with unique keys are one row. *)
Lemma NoDup_map_eq {A B} (f : A -> B) (l : list A) (a b : A) :
  NoDup (map f l) -> In a l -> In b l -> f a = f b -> a = b.
Proof.
  induction l as [|x l IH]; simpl; [intros _ []|].
  intros Hnd [->|Ha] [->|Hb] Hf; auto.
  - apply NoDup_cons_iff in Hnd as [Hx _].
    exfalso; apply Hx; rewrite Hf; now apply in_map.
  - apply NoDup_cons_iff in Hnd as [Hx _].
    exfalso; apply Hx; rewrite <- Hf; now apply in_map.
  - apply NoDup_cons_iff in Hnd as [_ Hnd]; auto.
Qed.

Lemma NoDup_map_filter {A B} (f : A -> B) (P : A -> bool) (l : list A) :
  NoDup (map f l) -> NoDup (map f (filter P l)).
Proof.
  induction l as [|x l IH]; simpl; [auto|].
  intros Hnd; apply NoDup_cons_iff in Hnd as [Hx Hnd].
  destruct (P x); simpl; auto.
  constructor; auto.
  intros Hin; apply Hx.
  apply in_map_iff in Hin as (y & Hy & Hin).
  apply filter_In in Hin as [Hin _].
  rewrite <- Hy; now apply in_map.
Qed.

(** The rows of one loop: consecutive fresh keys, all of the one order. *)
Lemma item_rows_range (order : Order) (items : list OrderItemData) :
  forall (n : pk) (it : OrderItem),
    In it (item_rows order n items) ->
    n <= item_id it < n + Z.of_nat (length items) /\
    item_order it = order_id order.
Proof.
  induction items as [|d ds IH]; intros n it; simpl; [intros []|].
  intros [<-|Hin]; simpl.
  - split; [lia|reflexivity].
  - destruct (IH _ _ Hin) as [Hr Ho]; split; [lia|exact Ho].
Qed.

Lemma item_rows_nodup (order : Order) (items : list OrderItemData) :
  forall n : pk, NoDup (map item_id (item_rows order n items)).
Proof.
  induction items as [|d ds IH]; intros n; simpl; constructor; [|apply IH].
  intros Hin; apply in_map_iff in Hin as (it & Hid & Hin).
  apply item_rows_range in Hin as [Hr _]; lia.
Qed.

Lemma length_item_rows (order : Order) (items : list OrderItemData) :
  forall n : pk, length (item_rows order n items) = length items.
Proof.
  induction items as [|d ds IH]; intros n; simpl; auto.
Qed.

Lemma Order_objects_get_In (db : DB) (k : pk) (o : Order) :
  Order_objects_get db k = Ok o -> In o (orders db) /\ order_id o = k.
Proof.
  unfold Order_objects_get.
  destruct (find _ (orders db)) as [o'|] eqn:E; [|discriminate].
  intros [= <-].
  apply find_some in E as [Hin E].
  split; [exact Hin|now apply Z.eqb_eq].
Qed.

(** In a table with unique keys, [get] finds every row under its key. *)
Lemma Order_objects_get_stored (db : DB) (o : Order) :
  NoDup (map order_id (orders db)) ->
  In o (orders db) ->
  Order_objects_get db (order_id o) = Ok o.
Proof.
  intros Hnd Hin; unfold Order_objects_get.
  destruct (find _ (orders db)) as [o'|] eqn:E.
  - apply find_some in E as [Hin' E]; apply Z.eqb_eq in E.
    f_equal; apply (NoDup_map_eq order_id (orders db)); auto.
  - apply (find_none _ _ E) in Hin.
    now rewrite Z.eqb_refl in Hin.
Qed.

(** ** Integrity is kept *)

(** A step that keeps the order keys, drops some items, adds items under
    fresh keys and adds history rows, all for stored orders, keeps the store
    in order. *)
Lemma store_ok_step (db db' : DB) :
  store_ok db ->
  map order_id (orders db') = map order_id (orders db) ->
  next_order_id db' = next_order_id db ->
  (exists (keep : OrderItem -> bool) (new : list OrderItem),
     order_items db' = filter keep (order_items db) ++ new /\
     Forall (fun it => next_item_id db <= item_id it < next_item_id db' /\
                       In (item_order it) (map order_id (orders db))) new /\
     NoDup (map item_id new) /\
     next_item_id db <= next_item_id db') ->
  (exists more : list OrderStatusHistory,
     status_history db' = status_history db ++ more /\
     Forall (fun h => In (history_order h) (map order_id (orders db))) more) ->
  store_ok db'.
Proof.
  intros [Hob Hon Hib Hin Hif Hhf] Hkeys Hnext
         (keep & new & Hitems & Hnew & Hnewnd & Hle) (more & Hhist & Hmore).
  rewrite Forall_forall in Hnew, Hib, Hif.
  constructor.
  - apply Forall_map with (f := order_id) (P := fun k => k < next_order_id db').
    rewrite Hkeys, Hnext; now apply Forall_map.
  - now rewrite Hkeys.
  - rewrite Hitems; apply Forall_app; split; apply Forall_forall; intros it Hit.
    + apply filter_In in Hit as [Hit _]; specialize (Hib it Hit); simpl in Hib; lia.
    + apply Hnew in Hit; lia.
  - rewrite Hitems, map_app; apply NoDup_app.
    + now apply NoDup_map_filter.
    + exact Hnewnd.
    + intros k Hk1 Hk2.
      apply in_map_iff in Hk1 as (a & <- & Ha), Hk2 as (b & Hb & Hbin).
      apply filter_In in Ha as [Ha _].
      specialize (Hib a Ha); apply Hnew in Hbin; simpl in Hib; lia.
  - rewrite Hitems, Hkeys; apply Forall_app; split; apply Forall_forall; intros it Hit.
    + apply filter_In in Hit as [Hit _]; auto.
    + now apply Hnew in Hit.
  - rewrite Hhist, Hkeys; apply Forall_app; split; auto.
Qed.

(** No stored order has the key that [create] hands out next. *)
Lemma next_order_key_is_fresh (db : DB) :
  store_ok db -> ~ In (next_order_id db) (map order_id (orders db)).
Proof.
  intros [Hob _ _ _ _ _] Hk.
  rewrite Forall_forall in Hob.
  apply in_map_iff in Hk as (o & Ho & Hk).
  specialize (Hob o Hk); simpl in Hob; lia.
Qed.

(** The store that [create] leaves. *)
Lemma store_ok_after_create (db : DB) (order : Order) (items : list OrderItemData) :
  store_ok db ->
  order_id order = next_order_id db ->
  store_ok
    (mkDB (menu_items db) (orders db ++ [order])
       (order_items db ++ item_rows order (next_item_id db) items)
       (status_history db ++ [mkHistory (next_order_id db) (order_status order)])
       (points db) (next_order_id db + 1)
       (next_item_id db + Z.of_nat (length items))).
Proof.
  intros Hok Hid.
  pose proof (next_order_key_is_fresh db Hok) as Hfresh.
  destruct Hok as [Hob Hon Hib Hin Hif Hhf].
  rewrite Forall_forall in Hob, Hib.
  constructor; simpl.
  - apply Forall_app; split; [|repeat constructor; simpl; lia].
    apply Forall_forall; intros o Ho; specialize (Hob o Ho); simpl in Hob; lia.
  - rewrite map_app; apply NoDup_app; simpl; auto.
    + repeat constructor; auto.
    + intros k Hk [<-|[]]; rewrite Hid in Hk; auto.
  - apply Forall_app; split; apply Forall_forall; intros it Hit.
    + specialize (Hib it Hit); simpl in Hib; lia.
    + apply item_rows_range in Hit; lia.
  - rewrite map_app; apply NoDup_app; auto using item_rows_nodup.
    intros k Hk1 Hk2.
    apply in_map_iff in Hk1 as (a & <- & Ha), Hk2 as (b & Hb & Hbin).
    specialize (Hib a Ha); apply item_rows_range in Hbin; simpl in Hib; lia.
  - rewrite map_app; apply Forall_app; split; apply Forall_forall; intros it Hit.
    + rewrite Forall_forall in Hif; apply in_or_app; left; auto.
    + apply item_rows_range in Hit as [_ ->]; apply in_or_app; right; simpl; auto.
  - rewrite map_app; apply Forall_app; split.
    + eapply Forall_impl; [|exact Hhf]; simpl; intros h Hh.
      apply in_or_app; now left.
    + repeat constructor; apply in_or_app; right; simpl; auto.
Qed.

(** X1. [create] on a store in order returns normally and leaves the
    store in order: the new order and its items get keys that no row had. *)
Theorem create_keeps_store_ok (db : DB) (d : OrderCreateData) :
  store_ok db ->
  exists (order : Order) (db' : DB),
    OrderManageSerializer_create d db = Ok (order, db') /\
    order_id order = next_order_id db /\
    ~ In (order_id order) (map order_id (orders db)) /\
    store_ok db'.
Proof.
  intros Hok.
  pose proof (create_run db d) as Hrun; cbv zeta in Hrun; rewrite Hrun.
  eexists _, _; split; [reflexivity|].
  split; [reflexivity|].
  split; [exact (next_order_key_is_fresh db Hok)|].
  now apply store_ok_after_create.
Qed.

Lemma create_keeps_store_ok_witness :
  store_ok (store PENDING [line1; line2] [PENDING]) /\
  exists (order : Order) (db' : DB),
    OrderManageSerializer_create
      (mkCreateData 1 (Some 4) None None None None
                    [mkItemData 2 1 None; mkItemData 1 3 None])
      (store PENDING [line1; line2] [PENDING])
    = Ok (order, db') /\
    order_id order = 2 /\
    ~ In (order_id order) [1] /\
    store_ok db'.
Proof.
  assert (Hok : store_ok (store PENDING [line1; line2] [PENDING]))
    by store_ok_by_computation.
  split; [exact Hok|].
  exact (create_keeps_store_ok (store PENDING [line1; line2] [PENDING])
           (mkCreateData 1 (Some 4) None None None None
                         [mkItemData 2 1 None; mkItemData 1 3 None]) Hok).
Defined.

(** X2. [update] of a stored order, whatever the request holds, leaves a
    store in order: the order keeps its key and its place, and when the
    request replaces the items, every item the order has afterwards has a key
    that no row of the item table had. *)
Theorem update_keeps_store_ok (db : DB) (instance : Order) (vd : OrderUpdateData) :
  store_ok db ->
  In (order_id instance) (map order_id (orders db)) ->
  exists (instance' : Order) (db' : DB),
    OrderManageSerializer_update instance vd db = Ok (instance', db') /\
    map order_id (orders db') = map order_id (orders db) /\
    store_ok db' /\
    forall items : list OrderItemData,
      upd_items vd = Some items ->
      forall it : OrderItem,
        In it (order_items db') ->
        item_order it = order_id instance ->
        ~ In (item_id it) (map item_id (order_items db)).
Proof.
  intros Hok Hstored.
  pose proof (update_run db instance vd) as Hrun; cbv zeta in Hrun; rewrite Hrun.
  eexists _, _; split; [reflexivity|].
  match goal with |- ?K /\ _ => assert (Hkeys : K) by (simpl; now apply upsert_keys) end.
  split; [exact Hkeys|].
  split.
  - apply (store_ok_step db); auto.
    + simpl; destruct (upd_items vd) as [items|].
      * eexists _, _; split; [reflexivity|].
        split; [|split; [apply item_rows_nodup|lia]].
        apply Forall_forall; intros it Hit.
        apply item_rows_range in Hit as [Hr ->]; auto.
      * exists (fun _ => true), []; rewrite filter_true, app_nil_r.
        repeat split; auto; [constructor|lia].
    + simpl; eexists; split; [reflexivity|].
      destruct (upd_status vd); repeat constructor; auto.
  - intros items Hitems it Hit Hord Hold; cbn [order_items] in Hit.
    rewrite Hitems in Hit.
    apply in_app_or in Hit as [Hit|Hit].
    + apply filter_In in Hit as [_ Hit].
      apply negb_true_iff, Z.eqb_neq in Hit; contradiction.
    + apply item_rows_range in Hit as [Hr _].
      destruct Hok as [_ _ Hib _ _ _]; rewrite Forall_forall in Hib.
      apply in_map_iff in Hold as (old & Hid & Hold).
      specialize (Hib old Hold); simpl in Hib; lia.
Qed.

Lemma update_keeps_store_ok_witness :
  store_ok store2 /\
  In (order_id (order1 PREPARING)) (map order_id (orders store2)) /\
  exists (instance' : Order) (db' : DB),
    OrderManageSerializer_update (order1 PREPARING)
      (mkUpdateData None (Some READY) (Some true)
                    (Some [mkItemData 2 4 None; mkItemData 1 1 None])) store2
    = Ok (instance', db') /\
    map order_id (orders db') = [1; 2] /\
    store_ok db' /\
    forall items : list OrderItemData,
      Some [mkItemData 2 4 None; mkItemData 1 1 None] = Some items ->
      forall it : OrderItem,
        In it (order_items db') ->
        item_order it = 1 ->
        ~ In (item_id it) [1; 3; 2].
Proof.
  assert (Hok : store_ok store2) by store_ok_by_computation.
  assert (Hin : In (order_id (order1 PREPARING)) (map order_id (orders store2)))
    by (simpl; auto).
  split; [exact Hok|].
  split; [exact Hin|].
  exact (update_keeps_store_ok store2 (order1 PREPARING)
           (mkUpdateData None (Some READY) (Some true)
                         (Some [mkItemData 2 4 None; mkItemData 1 1 None]))
           Hok Hin).
Defined.

(** X3. [cancelItem] of an item whose order is stored leaves a store in
    order, whether or not it cancels the order. *)
Theorem cancelItem_keeps_store_ok (db : DB) (item : OrderItem) (order : Order) :
  store_ok db ->
  OrderItem_order db item = Ok order ->
  exists db' : DB,
    cancelItem item db = Ok (item, db') /\
    map order_id (orders db') = map order_id (orders db) /\
    store_ok db'.
Proof.
  intros Hok Horder.
  pose proof (cancelItem_run db item order Horder) as Hrun; cbv zeta in Hrun.
  unfold cancelItem; rewrite Hrun.
  apply Order_objects_get_In in Horder as [Hin _].
  assert (Hk : In (order_id order) (map order_id (orders db))) by now apply in_map.
  set (last := negb _).
  eexists; split; [reflexivity|].
  match goal with |- ?K /\ _ =>
    assert (Hkeys : K) by (simpl; destruct last; [now apply upsert_keys|reflexivity])
  end.
  split; [exact Hkeys|].
  apply (store_ok_step db); auto.
  - simpl; eexists _, []; rewrite app_nil_r; split; [reflexivity|].
    repeat split; [constructor|constructor|lia].
  - simpl; destruct last.
    + eexists; split; [reflexivity|]; repeat constructor; auto.
    + exists []; rewrite app_nil_r; split; [reflexivity|constructor].
Qed.

Lemma cancelItem_keeps_store_ok_witness :
  store_ok (store PENDING [line1; line2] [PENDING]) /\
  OrderItem_order (store PENDING [line1; line2] [PENDING]) line2 = Ok (order1 PENDING) /\
  exists db' : DB,
    cancelItem line2 (store PENDING [line1; line2] [PENDING]) = Ok (line2, db') /\
    map order_id (orders db') = [1] /\
    store_ok db'.
Proof.
  assert (Hok : store_ok (store PENDING [line1; line2] [PENDING]))
    by store_ok_by_computation.
  split; [exact Hok|].
  split; [reflexivity|].
  exact (cancelItem_keeps_store_ok (store PENDING [line1; line2] [PENDING])
           line2 (order1 PENDING) Hok eq_refl).
Defined.

(** ** Two ways to cancel *)

(** X4. [OrderCancelSerializer.update] does to the store, and returns,
    exactly what [OrderManageSerializer.update] does for a request that holds
    only [status = CANCELLED]. *)
Theorem cancel_is_update_with_cancelled (db : DB) (order : Order) :
  OrderCancelSerializer_update order db
  = OrderManageSerializer_update order (mkUpdateData None (Some CANCELLED) None None) db.
Proof.
  pose proof (update_run db order (mkUpdateData None (Some CANCELLED) None None)) as H.
  cbv zeta in H; rewrite H, cancel_run.
  reflexivity.
Qed.

(** ** What an update leaves alone *)

Lemma filter_filter_imp {A} (P Q : A -> bool) (l : list A) :
  (forall x, P x = true -> Q x = true) ->
  filter P (filter Q l) = filter P l.
Proof.
  intros H; induction l as [|x l IH]; simpl; [reflexivity|].
  destruct (Q x) eqn:EQ; simpl; [now rewrite IH|].
  destruct (P x) eqn:EP; [|exact IH].
  apply H in EP; congruence.
Qed.

(** X5. After [update] of a stored order, reading its key gives the
    returned instance, and every other stored order reads as before, with the
    items and the history it had. *)
Theorem update_touches_one_order
    (db : DB) (instance : Order) (vd : OrderUpdateData) :
  store_ok db ->
  In (order_id instance) (map order_id (orders db)) ->
  exists (instance' : Order) (db' : DB),
    OrderManageSerializer_update instance vd db = Ok (instance', db') /\
    Order_objects_get db' (order_id instance) = Ok instance' /\
    forall o : Order,
      In o (orders db) -> order_id o <> order_id instance ->
      Order_objects_get db' (order_id o) = Ok o /\
      OrderSerializer_get_items db' o = OrderSerializer_get_items db o /\
      OrderSerializer_get_status_history db' o
      = OrderSerializer_get_status_history db o.
Proof.
  intros Hok Hstored.
  pose proof (update_run db instance vd) as Hrun; cbv zeta in Hrun; rewrite Hrun.
  set (i' := mkOrder _ _ _ _ _ _ _).
  eexists _, _; split; [reflexivity|].
  split.
  - apply (Order_objects_get_saved _ i' (orders db)); reflexivity.
  - intros o Hin Hne; split; [|split].
    + apply Order_objects_get_stored; simpl.
      * rewrite upsert_keys by exact Hstored; apply Hok.
      * now apply upsert_In_other.
    + unfold OrderSerializer_get_items; simpl.
      destruct (upd_items vd) as [items|]; [|reflexivity].
      rewrite filter_app, (filter_none _ (item_rows _ _ _)), app_nil_r.
      * apply filter_filter_imp.
        intros it Hit; apply Z.eqb_eq in Hit; rewrite Hit.
        apply negb_true_iff; now apply Z.eqb_neq.
      * intros it Hit; apply item_rows_range in Hit as [_ Hit].
        rewrite Hit; simpl; apply Z.eqb_neq; congruence.
    + unfold OrderSerializer_get_status_history, Order_status_history; simpl.
      rewrite filter_app, (filter_none _ (match upd_status vd with
                                          | Some s => _ | None => _ end)).
      * now rewrite app_nil_r.
      * intros h Hh; destruct (upd_status vd); simpl in Hh;
          [destruct Hh as [<-|[]]|destruct Hh].
        simpl; apply Z.eqb_neq; congruence.
Qed.

Lemma update_touches_one_order_witness :
  store_ok store2 /\
  In (order_id (order1 PREPARING)) (map order_id (orders store2)) /\
  exists (instance' : Order) (db' : DB),
    OrderManageSerializer_update (order1 PREPARING)
      (mkUpdateData None (Some READY) None (Some [])) store2
    = Ok (instance', db') /\
    Order_objects_get db' 1 = Ok instance' /\
    forall o : Order,
      In o (orders store2) -> order_id o <> 1 ->
      Order_objects_get db' (order_id o) = Ok o /\
      OrderSerializer_get_items db' o = OrderSerializer_get_items store2 o /\
      OrderSerializer_get_status_history db' o
      = OrderSerializer_get_status_history store2 o.
Proof.
  assert (Hok : store_ok store2) by store_ok_by_computation.
  assert (Hin : In (order_id (order1 PREPARING)) (map order_id (orders store2)))
    by (simpl; auto).
  split; [exact Hok|].
  split; [exact Hin|].
  exact (update_touches_one_order store2 (order1 PREPARING)
           (mkUpdateData None (Some READY) None (Some [])) Hok Hin).
Defined.

(** In a table with unique keys, saving a stored row as it is changes
    nothing. *)
Lemma upsert_stored (self : Order) (rows : list Order) :
  NoDup (map order_id rows) -> In self rows -> upsert self rows = rows.
Proof.
  intros Hnd Hin; unfold upsert.
  assert (Hk : In (order_id self) (map order_id rows)) by now apply in_map.
  apply existsb_key in Hk; rewrite Hk.
  rewrite <- (map_id rows) at 2.
  apply map_ext_in; intros o Ho.
  destruct (Z.eqb_spec (order_id o) (order_id self)) as [E|E]; [|reflexivity].
  symmetry; now apply (NoDup_map_eq order_id rows).
Qed.

(** X6. An [update] with none of the four keys, on the instance as it is
    stored, returns it and leaves the whole store as it was. *)
Theorem update_without_keys_is_identity (db : DB) (instance : Order) :
  NoDup (map order_id (orders db)) ->
  In instance (orders db) ->
  OrderManageSerializer_update instance (mkUpdateData None None None None) db
  = Ok (instance, db).
Proof.
  intros Hnd Hin.
  pose proof (update_run db instance (mkUpdateData None None None None)) as Hrun.
  cbv zeta in Hrun; rewrite Hrun; simpl.
  assert (Hi : mkOrder (order_id instance) (order_restaurant instance)
                 (order_table instance) (order_user instance)
                 (order_employee instance) (order_status instance)
                 (order_paid instance) = instance) by now destruct instance.
  rewrite Hi, (upsert_stored instance (orders db) Hnd Hin), app_nil_r.
  now destruct db.
Qed.

Lemma update_without_keys_is_identity_witness :
  NoDup (map order_id (orders (store READY [line1; line2] [PENDING; READY]))) /\
  In (order1 READY) (orders (store READY [line1; line2] [PENDING; READY])) /\
  OrderManageSerializer_update (order1 READY) (mkUpdateData None None None None)
    (store READY [line1; line2] [PENDING; READY])
  = Ok (order1 READY, store READY [line1; line2] [PENDING; READY]).
Proof.
  assert (Hnd : NoDup (map order_id (orders (store READY [line1; line2] [PENDING; READY])))).
  { simpl; repeat constructor; simpl; intuition. }
  assert (Hin : In (order1 READY) (orders (store READY [line1; line2] [PENDING; READY]))).
  { simpl; auto. }
  split; [exact Hnd|].
  split; [exact Hin|].
  exact (update_without_keys_is_identity
           (store READY [line1; line2] [PENDING; READY]) (order1 READY) Hnd Hin).
Defined.

(** ** Reading a new order back *)

Lemma item_rows_fields (order : Order) (items : list OrderItemData) :
  forall n : pk,
    map (fun it => (item_menu_item it, item_quantity it, item_employee it))
        (item_rows order n items)
    = map (fun e => (data_menu_item e, data_quantity e, data_employee e)) items.
Proof.
  induction items as [|e es IH]; intros n; simpl; [reflexivity|].
  now rewrite IH.
Qed.

(** X7. What [create] stores can be read back: the order under its new
    key, one item per entry of [items], in the order of the entries and with
    their menu items and quantities, and a history of the one status; every
    order stored before reads as before. *)
Theorem create_reads_back (db : DB) (d : OrderCreateData) :
  store_ok db ->
  exists (order : Order) (db' : DB),
    OrderManageSerializer_create d db = Ok (order, db') /\
    Order_objects_get db' (order_id order) = Ok order /\
    map (fun it => (item_menu_item it, item_quantity it, item_employee it))
        (OrderSerializer_get_items db' order)
    = map (fun e => (data_menu_item e, data_quantity e, data_employee e))
          (new_items d) /\
    OrderSerializer_get_status_history db' order = [dict_get (new_status d) PENDING] /\
    forall o : Order,
      In o (orders db) ->
      Order_objects_get db' (order_id o) = Ok o /\
      OrderSerializer_get_items db' o = OrderSerializer_get_items db o /\
      OrderSerializer_get_status_history db' o
      = OrderSerializer_get_status_history db o.
Proof.
  intros Hok.
  pose proof (create_run db d) as Hrun; cbv zeta in Hrun; rewrite Hrun.
  set (order := mkOrder _ _ _ _ _ _ _).
  pose proof (next_order_key_is_fresh db Hok) as Hfresh.
  pose proof (store_ok_after_create db order (new_items d) Hok eq_refl) as Hok'.
  eexists _, _; split; [reflexivity|].
  assert (Hitems : forall it, In it (order_items db) ->
                              (item_order it =? order_id order) = false).
  { intros it Hit; apply Z.eqb_neq; intros E.
    destruct Hok as [_ _ _ _ Hif _]; rewrite Forall_forall in Hif.
    apply Hfresh; change (next_order_id db) with (order_id order).
    rewrite <- E; auto. }
  assert (Hhist : forall h, In h (status_history db) ->
                            (history_order h =? order_id order) = false).
  { intros h Hh; apply Z.eqb_neq; intros E.
    destruct Hok as [_ _ _ _ _ Hhf]; rewrite Forall_forall in Hhf.
    apply Hfresh; change (next_order_id db) with (order_id order).
    rewrite <- E; auto. }
  split; [|split; [|split]].
  - apply Order_objects_get_stored; [apply Hok'|].
    simpl; apply in_or_app; right; simpl; auto.
  - unfold OrderSerializer_get_items; cbn [order_items].
    rewrite filter_app, (filter_none _ (order_items db) Hitems), filter_item_rows.
    apply item_rows_fields.
  - unfold OrderSerializer_get_status_history, Order_status_history.
    cbn [status_history].
    rewrite filter_app, (filter_none _ (status_history db) Hhist); simpl.
    now rewrite Z.eqb_refl.
  - intros o Hin.
    assert (Hne : order_id o <> order_id order).
    { intros E; apply Hfresh; change (next_order_id db) with (order_id order).
      rewrite <- E; now apply in_map. }
    split; [|split].
    + apply Order_objects_get_stored; [apply Hok'|].
      simpl; apply in_or_app; now left.
    + unfold OrderSerializer_get_items; cbn [order_items].
      rewrite filter_app, (filter_none _ (item_rows _ _ _)), app_nil_r; auto.
      intros it Hit; apply item_rows_range in Hit as [_ Hit].
      rewrite Hit; apply Z.eqb_neq; congruence.
    + unfold OrderSerializer_get_status_history, Order_status_history.
      cbn [status_history].
      rewrite filter_app; simpl.
      destruct (Z.eqb_spec (next_order_id db) (order_id o)) as [E|E];
        [symmetry in E; contradiction|].
      now rewrite app_nil_r.
Qed.

Lemma create_reads_back_witness :
  store_ok store2 /\
  exists (order : Order) (db' : DB),
    OrderManageSerializer_create
      (mkCreateData 1 None (Some 7) None None None
                    [mkItemData 2 1 None; mkItemData 1 3 None]) store2
    = Ok (order, db') /\
    Order_objects_get db' (order_id order) = Ok order /\
    map (fun it => (item_menu_item it, item_quantity it, item_employee it))
        (OrderSerializer_get_items db' order)
    = [(2, 1%N, None); (1, 3%N, None)] /\
    OrderSerializer_get_status_history db' order = [PENDING] /\
    forall o : Order,
      In o (orders store2) ->
      Order_objects_get db' (order_id o) = Ok o /\
      OrderSerializer_get_items db' o = OrderSerializer_get_items store2 o /\
      OrderSerializer_get_status_history db' o
      = OrderSerializer_get_status_history store2 o.
Proof.
  assert (Hok : store_ok store2) by store_ok_by_computation.
  split; [exact Hok|].
  exact (create_reads_back store2
           (mkCreateData 1 None (Some 7) None None None
                         [mkItemData 2 1 None; mkItemData 1 3 None]) Hok).
Defined.

(** ** Totals after a change of the items *)

Lemma find_menu_item (k : pk) (l : list MenuItem) :
  In k (map menu_item_id l) ->
  exists m, find (fun m => menu_item_id m =? k) l = Some m.
Proof.
  intros Hin; apply in_map_iff in Hin as (m & Hm & Hin).
  destruct (find _ l) as [m'|] eqn:E; [now exists m'|].
  apply (find_none _ _ E) in Hin; simpl in Hin.
  rewrite Hm, Z.eqb_refl in Hin; discriminate.
Qed.

(** The new rows cost what their entries cost, and every one of them
    finds its menu item when every entry names one. *)
Lemma item_rows_costs (db db' : DB) (order : Order) (items : list OrderItemData) :
  menu_items db' = menu_items db ->
  forall n : pk,
    map (line_cost db') (item_rows order n items) = map (data_cost db) items.
Proof.
  intros Hmenu; induction items as [|d ds IH]; intros n; simpl; [reflexivity|].
  rewrite IH; f_equal.
  unfold line_cost, data_cost, OrderItem_menu_item; simpl; rewrite Hmenu.
  now destruct (find _ (menu_items db)).
Qed.

Lemma item_rows_menu_ok (db db' : DB) (order : Order) (items : list OrderItemData) :
  menu_items db' = menu_items db ->
  Forall (fun d => In (data_menu_item d) (map menu_item_id (menu_items db))) items ->
  forall n : pk,
    Forall (fun it => exists m, OrderItem_menu_item db' it = Ok m)
           (item_rows order n items).
Proof.
  intros Hmenu; induction 1 as [|d ds Hd _ IH]; intros n; simpl; constructor; auto.
  unfold OrderItem_menu_item; simpl; rewrite Hmenu.
  destruct (find_menu_item _ _ Hd) as [m ->]; now exists m.
Qed.

(** X8. After the items of an order are replaced by entries that name
    menu items on the menu, with magnitudes of cost summing to less than
    [10 ^ 28] hundredths, its total is the sum of quantity times menu price
    over the new entries, whatever the order held before. *)
Theorem replaceItems_then_total
    (db : DB) (order : Order) (items : list OrderItemData) :
  Forall (fun d => In (data_menu_item d) (map menu_item_id (menu_items db))) items ->
  sum_abs (map (data_cost db) items) < 10 ^ 28 ->
  exists db' : DB,
    replaceItems order items db = Ok (order, db') /\
    OrderSerializer_get_total_cost db' order
    = Ok (sum_result (map (data_cost db) items)).
Proof.
  intros Hmenu Hb.
  pose proof (update_run db order (mkUpdateData None None None (Some items))) as Hrun.
  cbv zeta in Hrun; cbn [upd_table upd_status upd_paid upd_items dict_get] in Hrun.
  assert (Hi : mkOrder (order_id order) (order_restaurant order)
                 (order_table order) (order_user order)
                 (order_employee order) (order_status order)
                 (order_paid order) = order) by now destruct order.
  rewrite Hi in Hrun.
  unfold replaceItems; rewrite Hrun.
  eexists; split; [reflexivity|].
  unfold OrderSerializer_get_total_cost, Order_get_total_cost, Order_order_items.
  cbn [order_items].
  rewrite filter_app, filter_item_rows.
  rewrite (filter_excluded (fun it => item_order it =? order_id order)); cbn [app].
  rewrite fold_add_term_total.
  - now rewrite (item_rows_costs db).
  - apply (item_rows_menu_ok db); auto.
  - now rewrite (item_rows_costs db).
Qed.

Lemma replaceItems_then_total_witness :
  Forall (fun d => In (data_menu_item d) (map menu_item_id (menu_items store2)))
         [mkItemData 2 3 None; mkItemData 1 1 None] /\
  sum_abs (map (data_cost store2) [mkItemData 2 3 None; mkItemData 1 1 None])
  < 10 ^ 28 /\
  exists db' : DB,
    replaceItems (order1 PREPARING) [mkItemData 2 3 None; mkItemData 1 1 None] store2
    = Ok (order1 PREPARING, db') /\
    OrderSerializer_get_total_cost db' (order1 PREPARING) = Ok (Dec (hundredths 1825)).
Proof.
  assert (H : Forall (fun d => In (data_menu_item d)
                                  (map menu_item_id (menu_items store2)))
                     [mkItemData 2 3 None; mkItemData 1 1 None]).
  { repeat (apply Forall_cons; [simpl; auto|]); apply Forall_nil. }
  assert (Hb : sum_abs (map (data_cost store2)
                          [mkItemData 2 3 None; mkItemData 1 1 None]) < 10 ^ 28)
    by reflexivity.
  split; [exact H|].
  split; [exact Hb|].
  exact (replaceItems_then_total store2 (order1 PREPARING)
           [mkItemData 2 3 None; mkItemData 1 1 None] H Hb).
Defined.

(** X9. The total of a new order, whose entries name menu items on the
    menu with magnitudes of cost summing to less than [10 ^ 28] hundredths,
    is the sum of quantity times menu price over the entries of [items]. *)
Theorem create_then_total (db : DB) (d : OrderCreateData) :
  store_ok db ->
  Forall (fun e => In (data_menu_item e) (map menu_item_id (menu_items db)))
         (new_items d) ->
  sum_abs (map (data_cost db) (new_items d)) < 10 ^ 28 ->
  exists (order : Order) (db' : DB),
    OrderManageSerializer_create d db = Ok (order, db') /\
    OrderSerializer_get_total_cost db' order
    = Ok (sum_result (map (data_cost db) (new_items d))).
Proof.
  intros Hok Hmenu Hb.
  pose proof (create_run db d) as Hrun; cbv zeta in Hrun; rewrite Hrun.
  set (order := mkOrder _ _ _ _ _ _ _).
  pose proof (next_order_key_is_fresh db Hok) as Hfresh.
  eexists _, _; split; [reflexivity|].
  unfold OrderSerializer_get_total_cost, Order_get_total_cost, Order_order_items.
  cbn [order_items].
  rewrite filter_app, filter_item_rows, filter_none; cbn [app].
  - rewrite fold_add_term_total.
    + now rewrite (item_rows_costs db).
    + apply (item_rows_menu_ok db); auto.
    + now rewrite (item_rows_costs db).
  - intros it Hit; apply Z.eqb_neq; intros E.
    destruct Hok as [_ _ _ _ Hif _]; rewrite Forall_forall in Hif.
    apply Hfresh; change (next_order_id db) with (order_id order).
    rewrite <- E; auto.
Qed.

Lemma create_then_total_witness :
  store_ok store2 /\
  Forall (fun e => In (data_menu_item e) (map menu_item_id (menu_items store2)))
         [mkItemData 1 2 None; mkItemData 2 1 None] /\
  sum_abs (map (data_cost store2) [mkItemData 1 2 None; mkItemData 2 1 None])
  < 10 ^ 28 /\
  exists (order : Order) (db' : DB),
    OrderManageSerializer_create
      (mkCreateData 1 None (Some 7) None None None
                    [mkItemData 1 2 None; mkItemData 2 1 None]) store2
    = Ok (order, db') /\
    OrderSerializer_get_total_cost db' order = Ok (Dec (hundredths 2025)).
Proof.
  assert (Hok : store_ok store2) by store_ok_by_computation.
  assert (H : Forall (fun e => In (data_menu_item e)
                                  (map menu_item_id (menu_items store2)))
                     [mkItemData 1 2 None; mkItemData 2 1 None]).
  { repeat (apply Forall_cons; [simpl; auto|]); apply Forall_nil. }
  assert (Hb : sum_abs (map (data_cost store2)
                          [mkItemData 1 2 None; mkItemData 2 1 None]) < 10 ^ 28)
    by reflexivity.
  split; [exact Hok|].
  split; [exact H|].
  split; [exact Hb|].
  exact (create_then_total store2
           (mkCreateData 1 None (Some 7) None None None
                         [mkItemData 1 2 None; mkItemData 2 1 None]) Hok H Hb).
Defined.

Lemma filter_swap {A} (P Q : A -> bool) (l : list A) :
  filter P (filter Q l) = filter Q (filter P l).
Proof.
  induction l as [|x l IH]; simpl; [reflexivity|].
  destruct (P x) eqn:EP, (Q x) eqn:EQ; simpl; rewrite ?EP, ?EQ, IH; reflexivity.
Qed.

(** Dropping the one row with a given key takes its term off the sum. *)
Lemma sumZ_without (f : OrderItem -> Z) (item : OrderItem) (l : list OrderItem) :
  NoDup (map item_id l) ->
  In item l ->
  sumZ (map f (filter (fun it => negb (item_id it =? item_id item)) l))
  = sumZ (map f l) - f item.
Proof.
  induction l as [|x l IH]; simpl; [intros _ []|].
  intros Hnd Hin; apply NoDup_cons_iff in Hnd as [Hx Hnd].
  destruct Hin as [->|Hin].
  - rewrite Z.eqb_refl; simpl.
    rewrite forallb_filter_id.
    + unfold sumZ; simpl; lia.
    + apply forallb_forall; intros y Hy.
      apply negb_true_iff, Z.eqb_neq; intros E.
      apply Hx; rewrite <- E; now apply in_map.
  - destruct (Z.eqb_spec (item_id x) (item_id item)) as [E|E]; simpl.
    + exfalso; apply Hx; rewrite E; now apply in_map.
    + unfold sumZ in *; simpl; rewrite IH; auto; lia.
Qed.

(** Dropping rows does not raise the sum of magnitudes. *)
Lemma sum_abs_filter (f : OrderItem -> Z) (P : OrderItem -> bool) (l : list OrderItem) :
  sum_abs (map f (filter P l)) <= sum_abs (map f l).
Proof.
  unfold sum_abs, sumZ; induction l as [|x l IH]; simpl; [lia|].
  destruct (P x); simpl; lia.
Qed.

(** X10. With the magnitudes of the order's line costs summing to less
    than [10 ^ 28] hundredths, the total before [cancelItem] is the sum over
    the rows that name the order, the total after it is the sum over the rows
    that are left, and that sum is the sum before less the price times
    quantity of the cancelled item. *)
Theorem cancelItem_then_total (db : DB) (item : OrderItem) (order : Order) :
  NoDup (map item_id (order_items db)) ->
  In item (order_items db) ->
  OrderItem_order db item = Ok order ->
  menu_fk_ok db order ->
  sum_abs (map (line_cost db) (items_naming db (order_id order))) < 10 ^ 28 ->
  exists (returned : OrderItem) (db' : DB),
    cancelItem item db = Ok (returned, db') /\
    OrderSerializer_get_total_cost db order
    = Ok (sum_result (map (line_cost db) (items_naming db (order_id order)))) /\
    OrderSerializer_get_total_cost db' order
    = Ok (sum_result (map (line_cost db) (items_naming db' (order_id order)))) /\
    sumZ (map (line_cost db) (items_naming db' (order_id order)))
    = sumZ (map (line_cost db) (items_naming db (order_id order)))
      - line_cost db item.
Proof.
  intros Hnd Hin Horder Hfk Hb.
  pose proof (cancelItem_run db item order Horder) as Hrun; cbv zeta in Hrun.
  unfold cancelItem; rewrite Hrun.
  apply Order_objects_get_In in Horder as [_ Hid].
  eexists _, _; split; [reflexivity|].
  unfold OrderSerializer_get_total_cost, Order_get_total_cost.
  unfold menu_fk_ok in Hfk.
  change (Order_order_items db order) with (items_naming db (order_id order)) in *.
  rewrite (fold_add_term_total db _ Hfk Hb); split; [reflexivity|].
  unfold Order_order_items, items_naming in *; cbn [order_items].
  rewrite filter_swap.
  set (mine := filter _ (order_items db)) in *.
  assert (Hrest : Forall (fun it => exists m, OrderItem_menu_item db it = Ok m)
                    (filter (fun it => negb (item_id it =? item_id item)) mine)).
  { apply Forall_forall; intros it Hit.
    apply filter_In in Hit as [Hit _].
    rewrite Forall_forall in Hfk; auto. }
  assert (Hb' : sum_abs (map (line_cost db)
                           (filter (fun it => negb (item_id it =? item_id item)) mine))
                < 10 ^ 28).
  { eapply Z.le_lt_trans; [apply sum_abs_filter|exact Hb]. }
  split.
  - match goal with |- fold_left (add_term ?d) _ _ = _ =>
      change (add_term d) with (add_term db)
    end.
    apply (fold_add_term_total db _ Hrest Hb').
  - apply sumZ_without.
    + now apply NoDup_map_filter.
    + apply filter_In; split; [exact Hin|].
      apply Z.eqb_eq; congruence.
Qed.

Lemma cancelItem_then_total_witness :
  NoDup (map item_id (order_items store2)) /\
  In line2 (order_items store2) /\
  OrderItem_order store2 line2 = Ok (order1 PREPARING) /\
  menu_fk_ok store2 (order1 PREPARING) /\
  sum_abs (map (line_cost store2) (items_naming store2 (order_id (order1 PREPARING))))
  < 10 ^ 28 /\
  exists (returned : OrderItem) (db' : DB),
    cancelItem line2 store2 = Ok (returned, db') /\
    OrderSerializer_get_total_cost store2 (order1 PREPARING)
    = Ok (Dec (hundredths 2025)) /\
    OrderSerializer_get_total_cost db' (order1 PREPARING)
    = Ok (sum_result (map (line_cost store2) (items_naming db' 1))) /\
    sumZ (map (line_cost store2) (items_naming db' 1)) = 2025 - 325.
Proof.
  assert (Hnd : NoDup (map item_id (order_items store2))).
  { simpl; repeat constructor; simpl; intuition (try discriminate; lia). }
  assert (Hin : In line2 (order_items store2)) by (simpl; auto).
  assert (Hfk : menu_fk_ok store2 (order1 PREPARING)).
  { unfold menu_fk_ok; simpl; repeat constructor; eexists; reflexivity. }
  assert (Hb : sum_abs (map (line_cost store2)
                          (items_naming store2 (order_id (order1 PREPARING))))
               < 10 ^ 28) by reflexivity.
  split; [exact Hnd|].
  split; [exact Hin|].
  split; [reflexivity|].
  split; [exact Hfk|].
  split; [exact Hb|].
  exact (cancelItem_then_total store2 line2 (order1 PREPARING)
           Hnd Hin eq_refl Hfk Hb).
Defined.





(** ** The history follows the status *)

(** The history that is read for an order depends on its key only. *)
Lemma get_status_history_key (db : DB) (o o' : Order) :
  order_id o = order_id o' ->
  OrderSerializer_get_status_history db o = OrderSerializer_get_status_history db o'.
Proof.
  intros E; unfold OrderSerializer_get_status_history, Order_status_history.
  now rewrite E.
Qed.

Lemma get_status_history_other (db db' : DB) (o : Order) (more : list OrderStatusHistory) :
  status_history db' = status_history db ++ more ->
  (forall h, In h more -> history_order h <> order_id o) ->
  OrderSerializer_get_status_history db' o = OrderSerializer_get_status_history db o.
Proof.
  intros H Hmore; unfold OrderSerializer_get_status_history, Order_status_history.
  rewrite H, filter_app, (filter_none _ more), app_nil_r; auto.
  intros h Hh; apply Z.eqb_neq; auto.
Qed.

Lemma get_status_history_snoc (db db' : DB) (o : Order) (s : Status) :
  status_history db' = status_history db ++ [mkHistory (order_id o) s] ->
  OrderSerializer_get_status_history db' o
  = OrderSerializer_get_status_history db o ++ [s].
Proof.
  intros H; unfold OrderSerializer_get_status_history.
  now rewrite (Order_status_history_snoc db db' o s H), map_app.
Qed.

(** X12. [create] keeps the rule that the history of every stored order
    ends with the order's current status. *)
Theorem create_keeps_history_ends_with_status (db : DB) (d : OrderCreateData) :
  store_ok db ->
  history_ends_with_status db ->
  exists (order : Order) (db' : DB),
    OrderManageSerializer_create d db = Ok (order, db') /\
    history_ends_with_status db'.
Proof.
  intros Hok Hinv.
  pose proof (create_run db d) as Hrun; cbv zeta in Hrun; rewrite Hrun.
  set (order := mkOrder _ _ _ _ _ _ _).
  pose proof (next_order_key_is_fresh db Hok) as Hfresh.
  eexists _, _; split; [reflexivity|].
  intros o Ho; simpl in Ho.
  apply in_app_or in Ho as [Ho|[<-|[]]].
  - destruct (Hinv o Ho) as [past Hpast]; exists past.
    rewrite <- Hpast.
    apply (get_status_history_other db _ o
             [mkHistory (next_order_id db) (order_status order)]); [reflexivity|].
    intros h [<-|[]] E; simpl in E.
    apply Hfresh; rewrite E; now apply in_map.
  - exists (OrderSerializer_get_status_history db order).
    now apply get_status_history_snoc.
Qed.

Lemma create_keeps_history_ends_with_status_witness :
  store_ok store2 /\
  history_ends_with_status store2 /\
  exists (order : Order) (db' : DB),
    OrderManageSerializer_create
      (mkCreateData 1 None None None (Some READY) None [mkItemData 1 1 None]) store2
    = Ok (order, db') /\
    history_ends_with_status db'.
Proof.
  assert (Hok : store_ok store2) by store_ok_by_computation.
  assert (Hinv : history_ends_with_status store2).
  { intros o [<-|[<-|[]]]; exists [PENDING]; reflexivity. }
  split; [exact Hok|].
  split; [exact Hinv|].
  exact (create_keeps_history_ends_with_status store2
           (mkCreateData 1 None None None (Some READY) None [mkItemData 1 1 None])
           Hok Hinv).
Defined.

(** X13. [update] keeps that rule when the request has a [status], and
    also when it has none and the instance carries the status that is
    stored. *)
Theorem update_keeps_history_ends_with_status
    (db : DB) (instance stored : Order) (vd : OrderUpdateData) :
  store_ok db ->
  history_ends_with_status db ->
  Order_objects_get db (order_id instance) = Ok stored ->
  (upd_status vd = None -> order_status instance = order_status stored) ->
  exists (instance' : Order) (db' : DB),
    OrderManageSerializer_update instance vd db = Ok (instance', db') /\
    history_ends_with_status db'.
Proof.
  intros Hok Hinv Hstored Hfresh.
  pose proof (update_run db instance vd) as Hrun; cbv zeta in Hrun; rewrite Hrun.
  clear Hrun.
  remember (mkOrder _ _ _ _ _ _ _) as i' eqn:Hi'.
  assert (Hid' : order_id i' = order_id instance) by now subst i'.
  assert (Hst' : order_status i' = dict_get (upd_status vd) (order_status instance))
    by now subst i'.
  clear Hi'.
  eexists _, _; split; [reflexivity|].
  apply Order_objects_get_In in Hstored as [Hin Hid].
  assert (Hk : In (order_id i') (map order_id (orders db))).
  { rewrite Hid', <- Hid; now apply in_map. }
  intros o Ho; simpl in Ho.
  apply (upsert_In i' (orders db) o Hk) in Ho as [->|[Ho Hne]].
  - destruct (upd_status vd) as [s|] eqn:Es; simpl in Hst'; rewrite Hst'.
    + exists (OrderSerializer_get_status_history db i').
      apply get_status_history_snoc; simpl.
      now rewrite Hid'.
    + destruct (Hinv stored Hin) as [past Hpast]; exists past.
      rewrite (Hfresh eq_refl), <- Hpast.
      rewrite (get_status_history_key db stored i') by congruence.
      apply (get_status_history_other db _ i' []); simpl; [|intros h []].
      now rewrite app_nil_r.
  - destruct (Hinv o Ho) as [past Hpast]; exists past.
    rewrite <- Hpast.
    eapply (get_status_history_other db _ o); [reflexivity|].
    intros h Hh E; destruct (upd_status vd); simpl in Hh;
      [destruct Hh as [<-|[]]|destruct Hh].
    simpl in E; congruence.
Qed.

Lemma update_keeps_history_ends_with_status_witness :
  store_ok store2 /\
  history_ends_with_status store2 /\
  Order_objects_get store2 (order_id (order1 PREPARING)) = Ok (order1 PREPARING) /\
  exists (instance' : Order) (db' : DB),
    OrderManageSerializer_update (order1 PREPARING)
      (mkUpdateData (Some None) None (Some true) (Some [mkItemData 2 2 None])) store2
    = Ok (instance', db') /\
    history_ends_with_status db'.
Proof.
  assert (Hok : store_ok store2) by store_ok_by_computation.
  assert (Hinv : history_ends_with_status store2).
  { intros o [<-|[<-|[]]]; exists [PENDING]; reflexivity. }
  split; [exact Hok|].
  split; [exact Hinv|].
  split; [reflexivity|].
  exact (update_keeps_history_ends_with_status store2
           (order1 PREPARING) (order1 PREPARING)
           (mkUpdateData (Some None) None (Some true) (Some [mkItemData 2 2 None]))
           Hok Hinv eq_refl (fun _ => eq_refl)).
Defined.

(** X14. [cancelItem] keeps that rule, whether or not it cancels the
    order. *)
Theorem cancelItem_keeps_history_ends_with_status
    (db : DB) (item : OrderItem) (order : Order) :
  history_ends_with_status db ->
  OrderItem_order db item = Ok order ->
  exists db' : DB,
    cancelItem item db = Ok (item, db') /\
    history_ends_with_status db'.
Proof.
  intros Hinv Horder.
  pose proof (cancelItem_run db item order Horder) as Hrun; cbv zeta in Hrun.
  unfold cancelItem; rewrite Hrun.
  apply Order_objects_get_In in Horder as [Hin _].
  assert (Hk : In (order_id (set_status CANCELLED order)) (map order_id (orders db)))
    by (simpl; now apply in_map).
  set (last := negb _).
  eexists; split; [reflexivity|].
  intros o Ho; simpl in Ho.
  destruct last.
  - apply (upsert_In _ (orders db) o Hk) in Ho as [->|[Ho Hne]].
    + exists (OrderSerializer_get_status_history db order).
      rewrite (get_status_history_key db order (set_status CANCELLED order)) by reflexivity.
      now apply get_status_history_snoc.
    + destruct (Hinv o Ho) as [past Hpast]; exists past.
      rewrite <- Hpast.
      eapply (get_status_history_other db _ o); [reflexivity|].
      intros h [<-|[]] E; simpl in E, Hne; congruence.
  - destruct (Hinv o Ho) as [past Hpast]; exists past.
    rewrite <- Hpast.
    apply (get_status_history_other db _ o []); simpl; [|intros h []].
    now rewrite app_nil_r.
Qed.

Lemma cancelItem_keeps_history_ends_with_status_witness :
  history_ends_with_status store2 /\
  OrderItem_order store2 line3 = Ok order2 /\
  exists db' : DB,
    cancelItem line3 store2 = Ok (line3, db') /\
    history_ends_with_status db'.
Proof.
  assert (Hinv : history_ends_with_status store2).
  { intros o [<-|[<-|[]]]; exists [PENDING]; reflexivity. }
  split; [exact Hinv|].
  split; [reflexivity|].
  exact (cancelItem_keeps_history_ends_with_status store2 line3 order2 Hinv eq_refl).
Defined.

(** ** Tables and the lifecycle *)

Lemma Table_is_available_false (db : DB) (t : Table) :
  Table_is_available db t = false <->
  exists o : Order,
    In o (orders db) /\ order_table o = Some (table_id t) /\
    status__in [PENDING; PREPARING] o = true.
Proof.
  unfold Table_is_available.
  rewrite negb_false_iff, exists__true.
  split; intros [o Ho]; exists o.
  - apply filter_In in Ho as [Hin Hst].
    apply Table_orders_In in Hin as [Hin Htab]; auto.
  - destruct Ho as (Hin & Htab & Hst).
    apply filter_In; split; [apply Table_orders_In|]; auto.
Qed.

(** The rows of the Order table after [save] of a stored order. *)
Lemma upsert_In_iff (self : Order) (rows : list Order) (o : Order) :
  In (order_id self) (map order_id rows) ->
  In o (upsert self rows) <->
  o = self \/ (In o rows /\ order_id o <> order_id self).
Proof.
  intros Hk; split; [now apply upsert_In|].
  intros [->|[Hin Hne]]; [apply upsert_In_self|now apply upsert_In_other].
Qed.

(** X15. An order created for a table with no [status] in the request,
    or with PENDING or PREPARING, makes that table unavailable. *)
Theorem create_occupies_table (db : DB) (d : OrderCreateData) (t : Table) :
  new_table d = Some (table_id t) ->
  dict_get (new_status d) PENDING = PENDING \/
  dict_get (new_status d) PENDING = PREPARING ->
  exists (order : Order) (db' : DB),
    OrderManageSerializer_create d db = Ok (order, db') /\
    Table_is_available db' t = false.
Proof.
  intros Htab Hst.
  pose proof (create_run db d) as Hrun; cbv zeta in Hrun; rewrite Hrun.
  eexists _, _; split; [reflexivity|].
  apply Table_is_available_false.
  eexists; split; [simpl; apply in_or_app; right; simpl; eauto|].
  split; [exact Htab|].
  now apply status__in_active.
Qed.

Lemma create_occupies_table_witness :
  new_table (mkCreateData 1 (Some 9) None None None None [mkItemData 1 1 None])
  = Some (table_id (mkTable 9 1 2)) /\
  Table_is_available store2 (mkTable 9 1 2) = true /\
  exists (order : Order) (db' : DB),
    OrderManageSerializer_create
      (mkCreateData 1 (Some 9) None None None None [mkItemData 1 1 None]) store2
    = Ok (order, db') /\
    Table_is_available db' (mkTable 9 1 2) = false.
Proof.
  split; [reflexivity|].
  split; [reflexivity|].
  exact (create_occupies_table store2
           (mkCreateData 1 (Some 9) None None None None [mkItemData 1 1 None])
           (mkTable 9 1 2) eq_refl (or_introl eq_refl)).
Defined.

(** X16. After a stored order is set to READY, COMPLETED or CANCELLED, a
    table is unavailable exactly when another stored order for that table is
    PENDING or PREPARING. *)
Theorem leaving_kitchen_frees_table
    (db : DB) (order : Order) (newStatus : Status) (t : Table) :
  In (order_id order) (map order_id (orders db)) ->
  newStatus = READY \/ newStatus = COMPLETED \/ newStatus = CANCELLED ->
  exists db' : DB,
    setStatus order newStatus db = Ok (set_status newStatus order, db') /\
    (Table_is_available db' t = false <->
     exists o : Order,
       In o (orders db) /\ order_id o <> order_id order /\
       order_table o = Some (table_id t) /\
       (order_status o = PENDING \/ order_status o = PREPARING)).
Proof.
  intros Hk Hst.
  pose proof (update_run db order (mkUpdateData None (Some newStatus) None None)) as Hrun.
  cbv zeta in Hrun; cbn [upd_table upd_status upd_paid upd_items dict_get] in Hrun.
  change (mkOrder (order_id order) (order_restaurant order) (order_table order)
            (order_user order) (order_employee order) newStatus (order_paid order))
    with (set_status newStatus order) in Hrun.
  unfold setStatus; rewrite Hrun.
  eexists; split; [reflexivity|].
  rewrite Table_is_available_false; cbn [orders].
  split.
  - intros (o & Hin & Htab & Hact).
    apply (upsert_In (set_status newStatus order) (orders db) o Hk)
      in Hin as [->|[Hin Hne]].
    + apply status__in_active in Hact; simpl in Hact.
      destruct Hst as [-> | [-> | ->]]; destruct Hact; discriminate.
    + exists o; repeat split; auto.
      now apply status__in_active.
  - intros (o & Hin & Hne & Htab & Hact).
    exists o; split; [|split; [exact Htab|now apply status__in_active]].
    apply (upsert_In_iff (set_status newStatus order)); auto.
Qed.

Lemma leaving_kitchen_frees_table_witness :
  In (order_id (order1 PREPARING)) (map order_id (orders store2)) /\
  Table_is_available store2 table4 = false /\
  exists db' : DB,
    setStatus (order1 PREPARING) COMPLETED store2 = Ok (order1 COMPLETED, db') /\
    (Table_is_available db' table4 = false <->
     exists o : Order,
       In o (orders store2) /\ order_id o <> 1 /\
       order_table o = Some 4 /\
       (order_status o = PENDING \/ order_status o = PREPARING)).
Proof.
  assert (Hk : In (order_id (order1 PREPARING)) (map order_id (orders store2)))
    by (simpl; auto).
  split; [exact Hk|].
  split; [reflexivity|].
  exact (leaving_kitchen_frees_table store2 (order1 PREPARING) COMPLETED table4
           Hk (or_intror (or_introl eq_refl))).
Defined.

(** ** Querysets after an update *)

(** X17. After [update] of a stored order with [paid = True] in the
    request, the unpaid orders are the orders that were unpaid before, less
    the updated one. *)
Theorem paid_update_leaves_unpaid
    (db : DB) (instance : Order) (vd : OrderUpdateData) :
  In (order_id instance) (map order_id (orders db)) ->
  upd_paid vd = Some true ->
  exists (instance' : Order) (db' : DB),
    OrderManageSerializer_update instance vd db = Ok (instance', db') /\
    forall o : Order,
      In o (OrderManager_unpaid db') <->
      In o (OrderManager_unpaid db) /\ order_id o <> order_id instance.
Proof.
  intros Hk Hpaid.
  pose proof (update_run db instance vd) as Hrun; cbv zeta in Hrun; rewrite Hrun.
  clear Hrun; rewrite Hpaid; cbn [dict_get].
  eexists _, _; split; [reflexivity|].
  intros o; unfold OrderManager_unpaid, OrderManager_get_queryset, OrderQuerySet_unpaid.
  cbn [orders]; rewrite !filter_In.
  match goal with |- In o (upsert ?i _) /\ _ <-> _ =>
    rewrite (upsert_In_iff i (orders db) o Hk)
  end.
  simpl; split.
  - intros [[->|[Hin Hne]] Hp]; [discriminate|auto].
  - intros [[Hin Hp] Hne]; auto.
Qed.

Lemma paid_update_leaves_unpaid_witness :
  In (order_id (order1 PREPARING)) (map order_id (orders store2)) /\
  OrderManager_unpaid store2 = [order1 PREPARING] /\
  exists (instance' : Order) (db' : DB),
    OrderManageSerializer_update (order1 PREPARING)
      (mkUpdateData None None (Some true) None) store2
    = Ok (instance', db') /\
    forall o : Order,
      In o (OrderManager_unpaid db') <->
      In o (OrderManager_unpaid store2) /\ order_id o <> 1.
Proof.
  assert (Hk : In (order_id (order1 PREPARING)) (map order_id (orders store2)))
    by (simpl; auto).
  split; [exact Hk|].
  split; [reflexivity|].
  exact (paid_update_leaves_unpaid store2 (order1 PREPARING)
           (mkUpdateData None None (Some true) None) Hk eq_refl).
Defined.

(** X18. After [setStatus] of a stored order, [by_status] returns it for
    the new status and for no other, and returns every other order for the
    status it was listed under before. *)
Theorem setStatus_moves_order_between_statuses
    (db : DB) (order : Order) (newStatus : Status) :
  In (order_id order) (map order_id (orders db)) ->
  exists db' : DB,
    setStatus order newStatus db = Ok (set_status newStatus order, db') /\
    forall (s : Status) (o : Order),
      In o (OrderQuerySet_by_status (OrderManager_get_queryset db') s) <->
      (o = set_status newStatus order /\ s = newStatus) \/
      (In o (OrderQuerySet_by_status (OrderManager_get_queryset db) s) /\
       order_id o <> order_id order).
Proof.
  intros Hk.
  pose proof (update_run db order (mkUpdateData None (Some newStatus) None None)) as Hrun.
  cbv zeta in Hrun; cbn [upd_table upd_status upd_paid upd_items dict_get] in Hrun.
  change (mkOrder (order_id order) (order_restaurant order) (order_table order)
            (order_user order) (order_employee order) newStatus (order_paid order))
    with (set_status newStatus order) in Hrun.
  unfold setStatus; rewrite Hrun; clear Hrun.
  eexists; split; [reflexivity|].
  intros s o; unfold OrderManager_get_queryset, OrderQuerySet_by_status.
  cbn [orders]; rewrite !filter_In.
  rewrite (upsert_In_iff (set_status newStatus order) (orders db) o Hk).
  split.
  - intros [[->|[Hin Hne]] Hs]; [left|right; auto].
    split; [reflexivity|].
    simpl in Hs; destruct newStatus, s; (reflexivity || discriminate).
  - intros [[-> ->]|[[Hin Hs] Hne]]; [|auto].
    split; [now left|].
    simpl; now destruct newStatus.
Qed.

Lemma setStatus_moves_order_between_statuses_witness :
  In (order_id (order1 PREPARING)) (map order_id (orders store2)) /\
  OrderQuerySet_by_status (OrderManager_get_queryset store2) READY = [order2] /\
  exists db' : DB,
    setStatus (order1 PREPARING) READY store2 = Ok (order1 READY, db') /\
    forall (s : Status) (o : Order),
      In o (OrderQuerySet_by_status (OrderManager_get_queryset db') s) <->
      (o = order1 READY /\ s = READY) \/
      (In o (OrderQuerySet_by_status (OrderManager_get_queryset store2) s) /\
       order_id o <> 1).
Proof.
  assert (Hk : In (order_id (order1 PREPARING)) (map order_id (orders store2)))
    by (simpl; auto).
  split; [exact Hk|].
  split; [reflexivity|].
  exact (setStatus_moves_order_between_statuses store2 (order1 PREPARING) READY Hk).
Defined.

(** ** More on the ledger *)

(** The balance of any pair after one more entry. *)
Lemma get_total_points_snoc_any (db : DB) (user restaurant : pk) (amount : Z)
    (user' restaurant' : pk) :
  get_total_points
    (with_points (points db ++ [mkPoint user restaurant amount]) db)
    user' restaurant'
  = get_total_points db user' restaurant'
    + (if (user =? user') && (restaurant =? restaurant') then amount else 0).
Proof.
  unfold get_total_points; simpl.
  rewrite filter_app, map_app; simpl.
  destruct ((user =? user') && (restaurant =? restaurant')); simpl.
  - apply sum_snoc.
  - rewrite app_nil_r; lia.
Qed.

(** X19. [add_points] of an amount that the amount column can hold moves
    the balance of its pair by [amount] and leaves the balance of every other
    customer and of every other restaurant as it was. *)
Theorem add_points_changes_one_balance
    (db : DB) (user restaurant : pk) (amount : Z) :
  in_column amount = true ->
  exists db' : DB,
    Point_add_points user restaurant amount db = Ok (tt, db') /\
    get_total_points db' user restaurant
    = get_total_points db user restaurant + amount /\
    forall user' restaurant' : pk,
      user' <> user \/ restaurant' <> restaurant ->
      get_total_points db' user' restaurant' = get_total_points db user' restaurant'.
Proof.
  intros Hcol; unfold Point_add_points.
  rewrite Point_objects_create_run, Hcol.
  eexists; split; [reflexivity|].
  split.
  - now rewrite get_total_points_snoc_any, !Z.eqb_refl.
  - intros u' r' Hne; rewrite get_total_points_snoc_any.
    destruct (Z.eqb_spec user u'), (Z.eqb_spec restaurant r'); simpl; lia.
Qed.

Lemma add_points_changes_one_balance_witness :
  in_column 25 = true /\
  exists db' : DB,
    Point_add_points 7 1 25 (with_points [mkPoint 7 1 10; mkPoint 8 1 3] empty_db)
    = Ok (tt, db') /\
    get_total_points db' 7 1
    = get_total_points (with_points [mkPoint 7 1 10; mkPoint 8 1 3] empty_db) 7 1 + 25 /\
    forall user' restaurant' : pk,
      user' <> 7 \/ restaurant' <> 1 ->
      get_total_points db' user' restaurant'
      = get_total_points (with_points [mkPoint 7 1 10; mkPoint 8 1 3] empty_db)
          user' restaurant'.
Proof.
  split; [reflexivity|].
  exact (add_points_changes_one_balance
           (with_points [mkPoint 7 1 10; mkPoint 8 1 3] empty_db) 7 1 25 eq_refl).
Defined.

(** X20. [spend_points] of a non-negative amount never overdraws.  From a
    non-negative balance, whenever it returns, it leaves a non-negative
    balance, lower by [amount] when it returns [True] and the same when it
    returns [False], and no other balance moves; and it does return when the
    amount column can hold [-amount]. *)
Theorem spend_points_never_overdraws
    (db : DB) (user restaurant : pk) (amount : Z) :
  0 <= amount ->
  0 <= get_total_points db user restaurant ->
  (in_column (- amount) = true ->
   exists (ok : bool) (db' : DB),
     Point_spend_points user restaurant amount db = Ok (ok, db')) /\
  forall (ok : bool) (db' : DB),
    Point_spend_points user restaurant amount db = Ok (ok, db') ->
    get_total_points db' user restaurant
    = get_total_points db user restaurant - (if ok then amount else 0) /\
    0 <= get_total_points db' user restaurant /\
    forall user' restaurant' : pk,
      user' <> user \/ restaurant' <> restaurant ->
      get_total_points db' user' restaurant' = get_total_points db user' restaurant'.
Proof.
  intros Ha Hb; rewrite spend_points_run.
  destruct (get_total_points db user restaurant >=? amount) eqn:E.
  - split.
    + intros ->; eauto.
    + intros ok db' H.
      destruct (in_column (- amount)); [|discriminate].
      injection H as <- <-.
      rewrite get_total_points_snoc_any, !Z.eqb_refl; simpl.
      repeat split; try lia.
      intros u' r' Hne; rewrite get_total_points_snoc_any.
      destruct (Z.eqb_spec user u'), (Z.eqb_spec restaurant r'); simpl; lia.
  - split; [eauto|].
    intros ok db' H; injection H as <- <-.
    repeat split; lia.
Qed.

Lemma spend_points_never_overdraws_witness :
  0 <= 4 /\
  0 <= get_total_points (with_points [mkPoint 7 1 10; mkPoint 8 1 3] empty_db) 7 1 /\
  in_column (- 4) = true /\
  exists (ok : bool) (db' : DB),
    Point_spend_points 7 1 4 (with_points [mkPoint 7 1 10; mkPoint 8 1 3] empty_db)
    = Ok (ok, db') /\
    get_total_points db' 7 1
    = get_total_points (with_points [mkPoint 7 1 10; mkPoint 8 1 3] empty_db) 7 1
      - (if ok then 4 else 0) /\
    0 <= get_total_points db' 7 1 /\
    forall user' restaurant' : pk,
      user' <> 7 \/ restaurant' <> 1 ->
      get_total_points db' user' restaurant'
      = get_total_points (with_points [mkPoint 7 1 10; mkPoint 8 1 3] empty_db)
          user' restaurant'.
Proof.
  assert (Ha : 0 <= 4) by lia.
  assert (Hb : 0 <= get_total_points
                      (with_points [mkPoint 7 1 10; mkPoint 8 1 3] empty_db) 7 1)
    by (vm_compute; discriminate).
  split; [exact Ha|].
  split; [exact Hb|].
  split; [reflexivity|].
  destruct (spend_points_never_overdraws
              (with_points [mkPoint 7 1 10; mkPoint 8 1 3] empty_db) 7 1 4 Ha Hb)
    as [Hreturns Hthen].
  destruct (Hreturns eq_refl) as (ok & db' & Hrun).
  exists ok, db'; split; [exact Hrun|].
  exact (Hthen ok db' Hrun).
Defined.

(** X21. Points that are earned can be spent at once: from a non-negative
    balance, for an amount that the amount column can hold with either sign,
    [add_points] followed by [spend_points] of the same amount returns
    [True], appends two rows and gives the balance back. *)
Theorem earn_then_spend_restores_balance
    (db : DB) (user restaurant : pk) (amount : Z) :
  0 <= get_total_points db user restaurant ->
  in_column amount = true ->
  in_column (- amount) = true ->
  exists db' : DB,
    (Point_add_points user restaurant amount ;;
     Point_spend_points user restaurant amount) db
    = Ok (true, db') /\
    points db'
    = points db ++ [mkPoint user restaurant amount; mkPoint user restaurant (- amount)] /\
    get_total_points db' user restaurant = get_total_points db user restaurant.
Proof.
  intros Hb Hin Hout.
  unfold bind, Point_add_points.
  rewrite Point_objects_create_run, Hin, spend_points_run, Hout.
  set (db1 := with_points (points db ++ [mkPoint user restaurant amount]) db).
  assert (H1 : get_total_points db1 user restaurant
               = get_total_points db user restaurant + amount).
  { subst db1; now rewrite get_total_points_snoc_any, !Z.eqb_refl. }
  destruct (get_total_points db1 user restaurant >=? amount) eqn:E; [|lia].
  eexists; split; [reflexivity|].
  split.
  - subst db1; simpl; now rewrite <- app_assoc.
  - rewrite (get_total_points_snoc_any db1), !Z.eqb_refl; simpl; lia.
Qed.

Lemma earn_then_spend_restores_balance_witness :
  0 <= get_total_points (with_points [mkPoint 7 1 10] empty_db) 7 1 /\
  in_column 25 = true /\
  in_column (- 25) = true /\
  exists db' : DB,
    (Point_add_points 7 1 25 ;; Point_spend_points 7 1 25)
      (with_points [mkPoint 7 1 10] empty_db)
    = Ok (true, db') /\
    points db' = [mkPoint 7 1 10; mkPoint 7 1 25; mkPoint 7 1 (-25)] /\
    get_total_points db' 7 1
    = get_total_points (with_points [mkPoint 7 1 10] empty_db) 7 1.
Proof.
  assert (Hb : 0 <= get_total_points (with_points [mkPoint 7 1 10] empty_db) 7 1)
    by (vm_compute; discriminate).
  split; [exact Hb|].
  split; [reflexivity|].
  split; [reflexivity|].
  exact (earn_then_spend_restores_balance
           (with_points [mkPoint 7 1 10] empty_db) 7 1 25 Hb eq_refl eq_refl).
Defined.

(** X22. No method of the order serializers writes to the ledger or to
    the menu: after [create], [update], the cancel of an order and the cancel
    of an item, every balance and every price is what it was. *)
Theorem order_methods_leave_ledger_and_menu
    (db : DB) (d : OrderCreateData) (instance : Order) (vd : OrderUpdateData)
    (item : OrderItem) (order : Order) :
  OrderItem_order db item = Ok order ->
  (exists o db', OrderManageSerializer_create d db = Ok (o, db') /\
                 points db' = points db /\ menu_items db' = menu_items db) /\
  (exists o db', OrderManageSerializer_update instance vd db = Ok (o, db') /\
                 points db' = points db /\ menu_items db' = menu_items db) /\
  (exists o db', OrderCancelSerializer_update instance db = Ok (o, db') /\
                 points db' = points db /\ menu_items db' = menu_items db) /\
  (exists o db', OrderItemCancelSerializer_update item db = Ok (o, db') /\
                 points db' = points db /\ menu_items db' = menu_items db).
Proof.
  intros Horder.
  pose proof (create_run db d) as H1; cbv zeta in H1.
  pose proof (update_run db instance vd) as H2; cbv zeta in H2.
  pose proof (cancelItem_run db item order Horder) as H4; cbv zeta in H4.
  rewrite H1, H2, H4, cancel_run.
  repeat split; eexists _, _; (split; [reflexivity|]); split; reflexivity.
Qed.

Lemma order_methods_leave_ledger_and_menu_witness :
  OrderItem_order store2 line3 = Ok order2 /\
  exists (o : OrderItem) (db' : DB),
    OrderItemCancelSerializer_update line3 store2 = Ok (o, db') /\
    points db' = points store2 /\ menu_items db' = menu_items store2.
Proof.
  split; [reflexivity|].
  apply (order_methods_leave_ledger_and_menu store2
           (mkCreateData 1 None None None None None [])
           order2 (mkUpdateData None None None None) line3 order2 eq_refl).
Defined.
